(** * scrapy-warcio: the WARC record writer (src/scrapy_warcio/warcio.py)

    A shallow embedding of [ScrapyWarcIo] and of the downloader middleware
    that drives it.  The Python object [self] becomes the record [Writer];
    the file system, the clock and the other sources of values that the
    code reads from its surroundings become the record [World] and the
    oracle record [Env]; a method that may raise is a function of the
    state-and-exception monad [M]. *)

From Stdlib Require Import ZArith String Ascii List Lia DecimalString.
From stdpp Require Import base option list strings gmap pretty.

Local Open Scope Z_scope.
Local Open Scope string_scope.

(** ** The pieces of Python's library that the module calls *)

Module Py.

(** [s * n] on strings. *)
Fixpoint str_mul (s : string) (n : nat) : string :=
  match n with
  | O => ""
  | S k => s +:+ str_mul s k
  end.

(** [int(s)] for a string of decimal digits with an optional sign. *)
Definition int (s : string) : option Z :=
  Z.of_int <$> NilZero.int_of_string s.

(** [str(z)] of an integer. *)
Definition str_int (z : Z) : string := pretty z.

(** [sep.join(l)]. *)
Definition join (sep : string) (l : list string) : string :=
  String.concat sep l.

Definition startswith (s p : string) : bool := String.prefix p s.

Definition endswith (s : string) (c : ascii) : bool :=
  match rev (list_ascii_of_string s) with
  | x :: _ => Ascii.eqb x c
  | [] => false
  end.

(** [s.zfill(width)]: zeros go between a leading sign and the digits. *)
Definition zfill (s : string) (width : nat) : string :=
  if (width <=? String.length s)%nat then s
  else
    let fill := str_mul "0" (width - String.length s) in
    match s with
    | String c rest =>
        if Ascii.eqb c "+" || Ascii.eqb c "-"
        then String c (fill +:+ rest)
        else fill +:+ s
    | EmptyString => fill
    end.

(** [s.split(sep)[0]]: the part of [s] before the first [sep]. *)
Fixpoint split_head (sep : ascii) (s : string) : string :=
  match s with
  | EmptyString => ""
  | String c rest =>
      if Ascii.eqb c sep then "" else String c (split_head sep rest)
  end.

(** [os.path.join(a, b)] of posixpath, for two components. *)
Definition path_join (a b : string) : string :=
  if startswith b "/" then b
  else if String.eqb a "" || endswith a "/" then a +:+ b
  else a +:+ "/" +:+ b.

(** [os.path.dirname(p)] of posixpath: everything up to the last slash,
    with the trailing slashes removed unless nothing else is left. *)
Fixpoint rstrip_slash (l : list ascii) : list ascii :=
  match l with
  | [] => []
  | c :: rest =>
      match rstrip_slash rest with
      | [] => if Ascii.eqb c "/" then [] else [c]
      | r => c :: r
      end
  end.

Fixpoint head_upto_last_slash (l : list ascii) : list ascii :=
  match l with
  | [] => []
  | c :: rest =>
      if existsb (Ascii.eqb "/") l
      then c :: head_upto_last_slash rest
      else []
  end.

Definition dirname (p : string) : string :=
  let head := head_upto_last_slash (list_ascii_of_string p) in
  if forallb (Ascii.eqb "/") head
  then string_of_list_ascii head
  else string_of_list_ascii (rstrip_slash head).

End Py.

(** ** Data model *)

(** A Python value that the code only ever renders with [str()]. *)
Inductive PyVal :=
| PStr (s : string)
| PBytes (b : string)
| PInt (z : Z)
| PNone.

#[global] Instance PyVal_eq_dec : EqDecision PyVal.
Proof. solve_decision. Defined.

(** A Scrapy request or response as the writer sees it: the code probes
    its argument with [hasattr], so every attribute may be absent. *)
Module Obj.
Record t := mk {
  url : option string;
  method : option string;
  status : option PyVal;
  body : option PyVal;
  headers : option (list (PyVal * PyVal));
  meta : option (gmap string PyVal)
}.
End Obj.

(** The exceptions the code raises itself ([ValueError], [IOError]) and
    the ones attribute access and [open] raise on its behalf. *)
Inductive Err :=
| ValueError (msg : string)
| IOError (msg : string)
| AttributeError (attr : string)
| KeyError (key : string)
| TypeError (msg : string)
| FileNotFoundError (path : string)
| NotADirectoryError (path : string)
| IsADirectoryError (path : string).

(** [self.config]. *)
Record Config := {
  warc_spec : string;
  max_warc_size : Z;
  collection : string;
  description : string;
  operator : string;
  robots : string;
  user_agent : string;
  warc_prefix : string;
  warc_dest : string
}.

(** The attributes of a [ScrapyWarcIo] instance that its methods read or
    assign ([log], [req_date_set] and the class attribute [warc_dest] are
    never read). *)
Record Writer := {
  warc_fname : option string;
  warc_count : Z;
  warc_size : Z;
  max_serial : Z;
  config : Config
}.

(** warcio's [StatusAndHeaders(statusline, headers, protocol)]. *)
Record StatusAndHeaders := {
  statusline : string;
  sh_headers : list (string * PyVal);
  protocol : string
}.

(** The arguments of warcio's [create_warc_record] as [write_record]
    calls it: [uri], [record_type], [payload] and [http_headers] are
    passed; [warc_headers_dict] and [warc_headers], from which warcio
    takes the WARC headers of the record, keep their default [None]
    unless the caller gives them. *)
Record WarcRecord := {
  uri : string;
  record_type : string;
  payload : string;
  warc_headers_dict : option (list (string * PyVal));
  warc_headers : option StatusAndHeaders;
  http_headers : StatusAndHeaders
}.

(** One gzip member of a segment file: the record and the number of bytes
    it occupies on disk. *)
Record Frame := {
  frame_record : WarcRecord;
  frame_len : Z
}.

Inductive Node :=
| Dir (st_size : Z)
| File (frames : list Frame).

(** What lies outside the writer: the file system, a counter of the
    calls made to the clock, the UUID generator and the compressor, and
    the log of the records appended so far, each with the path of the
    file it went to. *)
Record World := {
  fs : gmap string Node;
  tick : nat;
  trace : list (string * WarcRecord)
}.

(** Values the code obtains from its surroundings.  The functions that
    depend on the moment of the call take the [tick] of the world.
    [urlparse_path u] is [urlparse(u).path]: [inr] the path, or [inl] the
    message of the [ValueError] that [urlparse] raises on a URL it cannot
    split. *)
Record Env := {
  gethostname : string;
  strftime_now : nat -> string;
  warc_date : nat -> string;
  uuid1 : nat -> string;
  getsizeof : string -> Z;
  gzip_len : nat -> WarcRecord -> Z;
  urlparse_path : string -> string + string;
  repr_bytes : string -> string;
  scrapy_version : string
}.

Record St := {
  self : Writer;
  world : World
}.

(** ** The monad of methods: state, exceptions, and fuel for the
    recursion between [write_record], [bump_serial] and [write_warcinfo] *)

Inductive Res (A : Type) :=
| Ret (a : A) (st : St)
| Raise (e : Err) (st : St)
| OutOfFuel.

Arguments Ret {A} a st.
Arguments Raise {A} e st.
Arguments OutOfFuel {A}.

Definition M (A : Type) : Type := St -> Res A.

Definition ret {A} (a : A) : M A := fun st => Ret a st.

Definition bind {A B} (m : M A) (k : A -> M B) : M B :=
  fun st =>
    match m st with
    | Ret a st' => k a st'
    | Raise e st' => Raise e st'
    | OutOfFuel => OutOfFuel
    end.

Definition raise {A} (e : Err) : M A := fun st => Raise e st.

Definition gets {A} (f : St -> A) : M A := fun st => Ret (f st) st.

Definition set_self (f : Writer -> Writer) : M unit :=
  fun st => Ret tt {| self := f (self st); world := world st |}.

Definition set_world (f : World -> World) : M unit :=
  fun st => Ret tt {| self := self st; world := f (world st) |}.

Definition lift {A} (r : Err + A) : M A :=
  match r with
  | inl e => raise e
  | inr a => ret a
  end.

Declare Scope py_scope.
Delimit Scope py_scope with py.
Notation "x <- m ;; k" := (bind m (fun x => k))
  (at level 100, m at next level, right associativity) : py_scope.
Notation "m ;; k" := (bind m (fun _ => k))
  (at level 100, right associativity) : py_scope.
Local Open Scope py_scope.

(** Attribute access [obj.name]. *)
Definition getattr {A} (name : string) (o : option A) : Err + A :=
  match o with
  | Some a => inr a
  | None => inl (AttributeError name)
  end.

(** Truth value of a Python value, as [not x] and [x or y] test it. *)
Definition truthy (v : PyVal) : bool :=
  match v with
  | PStr s => negb (String.eqb s "")
  | PBytes b => negb (String.eqb b "")
  | PInt z => negb (z =? 0)%Z
  | PNone => false
  end.

(** [bytes(v, 'utf-8')] accepts a [str] only. *)
Definition bytes_utf8 (v : PyVal) : Err + string :=
  match v with
  | PStr s => inr s
  | _ => inl (TypeError "encoding without a string argument")
  end.

(** [for x in l: ...] collecting one result per element. *)
Fixpoint for_each {A B} (l : list A) (f : A -> M B) : M (list B) :=
  match l with
  | [] => ret []
  | x :: rest =>
      y <- f x;;
      ys <- for_each rest f;;
      ret (y :: ys)
  end.

(** [mapping[key]] on a mapping given by its items in iteration order. *)
Fixpoint getitem (items : list (PyVal * PyVal)) (key : PyVal) : option PyVal :=
  match items with
  | [] => None
  | (k, v) :: rest => if decide (k = key) then Some v else getitem rest key
  end.

(** [StatusAndHeaders.get_header]: the value of the first header of that name. *)
Fixpoint get_header (hs : list (string * PyVal)) (name : string) : option PyVal :=
  match hs with
  | [] => None
  | (k, v) :: rest => if String.eqb k name then Some v else get_header rest name
  end.

(** ** The file system *)

Definition path_exists (p : string) : M bool :=
  gets (fun st => bool_decide (is_Some (fs (world st) !! p))).

Definition node_size (n : Node) : Z :=
  match n with
  | Dir sz => sz
  | File frames => foldr (fun fr acc => frame_len fr + acc) 0 frames
  end.

(** [os.stat(p).st_size]. *)
Definition stat_size (p : string) : M Z :=
  n <- gets (fun st => fs (world st) !! p);;
  match n with
  | Some n => ret (node_size n)
  | None => raise (FileNotFoundError p)
  end.

Definition with_fs (f : gmap string Node -> gmap string Node) (w : World) : World :=
  {| fs := f (fs w); tick := tick w; trace := trace w |}.

Definition next_tick (w : World) : World :=
  {| fs := fs w; tick := S (tick w); trace := trace w |}.

(** [open(p, 'ab')]: an existing file is opened as it is, a missing one
    is created empty when its directory exists (the empty directory name
    is the working directory). *)
Definition open_ab (p : string) : M unit :=
  n <- gets (fun st => fs (world st) !! p);;
  match n with
  | Some (File _) => ret tt
  | Some (Dir _) => raise (IsADirectoryError p)
  | None =>
      let d := Py.dirname p in
      parent <- gets (fun st => fs (world st) !! d);;
      if String.eqb d "" then set_world (with_fs (insert p (File [])))
      else
        match parent with
        | Some (Dir _) => set_world (with_fs (insert p (File [])))
        | Some (File _) => raise (NotADirectoryError p)
        | None => raise (FileNotFoundError p)
        end
  end.

Definition frames_at (p : string) (m : gmap string Node) : list Frame :=
  match m !! p with
  | Some (File frames) => frames
  | _ => []
  end.

Definition append_frame (p : string) (fr : Frame) (w : World) : World :=
  {| fs := <[p := File (frames_at p (fs w) ++ [fr])]> (fs w);
     tick := S (tick w);
     trace := trace w ++ [(p, frame_record fr)] |}.

(** ** ScrapyWarcIo *)

Definition WARC_LINE_SEP : string := String "013" (String "010" "").
Definition WARC_SERIAL_ZFILL : nat := 5.

Definition default_config : Config :=
  {| warc_spec := "https://iipc.github.io/warc-specifications/specifications/warc-format/warc-1.0/";
     max_warc_size := 10000000000;
     collection := "quotes";
     description := "description";
     operator := "john@doe.nl";
     robots := "obey";
     user_agent := "";
     warc_prefix := "rec";
     warc_dest := "" |}.

(** [__init__], with the class attributes as the initial values. *)
Definition init : Err + Writer :=
  match Py.int (Py.str_mul "9" WARC_SERIAL_ZFILL) with
  | Some n =>
      inr {| warc_fname := None; warc_count := 0; warc_size := 0;
             max_serial := n; config := default_config |}
  | None => inl (ValueError "invalid literal for int()")
  end.

Definition set_warc_fname (f : option string) (w : Writer) : Writer :=
  {| warc_fname := f; warc_count := warc_count w; warc_size := warc_size w;
     max_serial := max_serial w; config := config w |}.

Definition set_warc_size (n : Z) (w : Writer) : Writer :=
  {| warc_fname := warc_fname w; warc_count := warc_count w; warc_size := n;
     max_serial := max_serial w; config := config w |}.

Definition set_warc_count (n : Z) (w : Writer) : Writer :=
  {| warc_fname := warc_fname w; warc_count := n; warc_size := warc_size w;
     max_serial := max_serial w; config := config w |}.

Section ScrapyWarcIo.

Context (E : Env).

Definition py_str (v : PyVal) : string :=
  match v with
  | PStr s => s
  | PBytes b => repr_bytes E b
  | PInt z => Py.str_int z
  | PNone => "None"
  end.

(** A call to the clock, to [uuid1] or to [warc_date]: the oracle is read
    at the current tick and the tick advances. *)
Definition ask (oracle : nat -> string) : M string :=
  t <- gets (fun st => tick (world st));;
  set_world next_tick;;
  ret (oracle t).

Definition record_id : M string :=
  u <- ask (uuid1 E);;
  ret ("<urn:uuid:" +:+ u +:+ ">").

Definition get_headers (record : Obj.t) : M string :=
  match Obj.headers record with
  | None => ret ""
  | Some hs =>
      http_line <-
        match Obj.method record with
        | Some m =>
            u <- lift (getattr "url" (Obj.url record));;
            purl_path <- match urlparse_path E u with
                         | inr path => ret path
                         | inl msg => raise (ValueError msg)
                         end;;
            ret (Py.join " " [m; purl_path; "HTTP/1.0"])
        | None =>
            match Obj.status record with
            | Some s => ret (Py.join " " ["HTTP/1.0"; py_str s])
            | None => raise (ValueError "Unable to form http_line from record.")
            end
        end;;
      lines <- for_each (map fst hs) (fun key =>
        match getitem hs key with
        | Some val => ret (py_str key +:+ ": " +:+ py_str val)
        | None => raise (KeyError (py_str key))
        end);;
      ret (Py.join WARC_LINE_SEP (http_line :: lines))
  end.

Definition warcfile : M string :=
  w <- gets self;;
  if (max_serial w <? warc_count w)%Z then
    raise (ValueError ("warc_count: " +:+ Py.str_int (warc_count w)
                       +:+ " exceeds max_serial: " +:+ Py.str_int (max_serial w)))
  else
    let tla := warc_prefix (config w) in
    timestamp <- ask (strftime_now E);;
    let serial := Py.zfill (Py.str_int (warc_count w)) WARC_SERIAL_ZFILL in
    let fqdn := Py.split_head "." (gethostname E) in
    let warc_name := Py.join "-" [tla; timestamp; serial; fqdn] +:+ ".warc.gz" in
    let dest := warc_dest (config w) in
    dest_exists <- path_exists dest;;
    if truthy (PStr dest) && negb dest_exists then
      raise (IOError ("warc_dest not found: " +:+ dest))
    else
      let fname := Py.path_join dest warc_name in
      fname_exists <- path_exists fname;;
      if fname_exists then raise (IOError ("WARC file exists: " +:+ fname))
      else ret fname.

(** [bump_serial], [write_warcinfo] and [write_record] call one another;
    the first two are written over the [write_record] they call, and
    [write_record] recurses on its fuel. *)
(** The list [headers] of [write_warcinfo]. *)
Definition warcinfo_headers (date : string) (fname : option string) (rid : string)
    : list (string * PyVal) :=
  [ ("WARC-Type", PStr "warcinfo");
    ("WARC-Date", PStr date);
    ("WARC-Filename", from_option PStr PNone fname);
    ("WARC-Record-ID", PStr rid) ].

(** The list [content] of [write_warcinfo]. *)
Definition warcinfo_content (cfg : Config) : list string :=
  [ "software: Scrapy/" +:+ scrapy_version E +:+ " (+https://scrapy.org)";
    "format: WARC file version 1.0";
    "conformsTo: " +:+ warc_spec cfg;
    "operator: " +:+ operator cfg;
    "isPartOf: " +:+ collection cfg;
    "description: " +:+ description cfg;
    "robots: " +:+ robots cfg;
    "http-header-user-agent: " +:+ user_agent cfg ].

Definition write_warcinfo_with
    (write_record : list (string * PyVal) -> string -> string -> M unit) : M unit :=
  date <- ask (warc_date E);;
  fname <- gets (fun st => warc_fname (self st));;
  rid <- record_id;;
  let headers := warcinfo_headers date fname rid in
  cfg <- gets (fun st => config (self st));;
  let content := warcinfo_content cfg in
  write_record headers "application/warc-fields" (Py.join WARC_LINE_SEP content).

Definition bump_serial_with
    (write_record : list (string * PyVal) -> string -> string -> M unit)
    (content_bytes : Z) : M unit :=
  fname <- gets (fun st => warc_fname (self st));;
  create_new_warc <-
    match fname with
    | None => ret true
    | Some p =>
        p_exists <- path_exists p;;
        if p_exists then
          sz <- stat_size p;;
          set_self (set_warc_size sz);;
          w <- gets self;;
          let estimate := warc_size w + content_bytes in
          ret (max_warc_size (config w) <=? estimate)%Z
        else ret false
    end;;
  if create_new_warc : bool then
    f <- warcfile;;
    set_self (set_warc_fname (Some f));;
    write_warcinfo_with write_record;;
    set_self (fun w => set_warc_count (warc_count w + 1) w)
  else ret tt.

Definition make_record (headers : list (string * PyVal)) (content : string) : WarcRecord :=
  {| uri := "https://www.test.nl";
     record_type := "response";
     payload := content;
     warc_headers_dict := None;
     warc_headers := None;
     http_headers := {| statusline := "200 OK"; sh_headers := headers; protocol := "HTTPS" |} |}.

Definition writer_write_record (p : string) (record : WarcRecord) : M unit :=
  t <- gets (fun st => tick (world st));;
  set_world (append_frame p {| frame_record := record; frame_len := gzip_len E t record |}).

(** [write_record] after its call of [bump_serial]: the header bytes,
    then the record appended to the file [self.warc_fname]. *)
Definition append_record (headers : list (string * PyVal)) (content : string) : M unit :=
  bheaders <- for_each headers (fun kv =>
    val <- lift (bytes_utf8 (snd kv));;
    ret (fst kv, val));;
  fname <- gets (fun st => warc_fname (self st));;
  match fname with
  | None => raise (TypeError "expected str, bytes or os.PathLike object, not NoneType")
  | Some p =>
      open_ab p;;
      writer_write_record p (make_record headers content)
  end.

Fixpoint write_record (fuel : nat) (headers : list (string * PyVal))
    (content_type : string) (content : string) : M unit :=
  match fuel with
  | O => fun _ => OutOfFuel
  | S fuel' =>
      bump_serial_with (write_record fuel') (getsizeof E content);;
      append_record headers content
  end.

(** The list [warc_headers] of [write]. *)
Definition response_warc_headers (u : string) (date : PyVal) (rid : string)
    : list (string * PyVal) :=
  [ ("WARC-Type", PStr "response");
    ("WARC-Target-URI", PStr u);
    ("WARC-Date", date);
    ("WARC-Record-ID", PStr rid) ].

(** The list [warc_headers] of [write_request]. *)
Definition request_warc_headers (u : string) (date : PyVal) (rid concurrent_to : string)
    : list (string * PyVal) :=
  [ ("WARC-Type", PStr "request");
    ("WARC-Target-URI", PStr u);
    ("WARC-Date", date);
    ("WARC-Record-ID", PStr rid);
    ("WARC-Concurrent-To", PStr concurrent_to) ].

Definition bump_serial (fuel : nat) : Z -> M unit :=
  bump_serial_with (write_record fuel).

Definition write_warcinfo (fuel : nat) : M unit :=
  write_warcinfo_with (write_record fuel).

Definition write_request (fuel : nat) (request : Obj.t) (concurrent_to : string) : M unit :=
  u <- lift (getattr "url" (Obj.url request));;
  m <- lift (getattr "meta" (Obj.meta request));;
  date <- match m !! "WARC-Date" with
          | Some d => ret d
          | None => raise (KeyError "WARC-Date")
          end;;
  rid <- record_id;;
  let warc_headers := request_warc_headers u date rid concurrent_to in
  hs <- get_headers request;;
  b <- lift (getattr "body" (Obj.body request));;
  let content := hs +:+ Py.str_mul WARC_LINE_SEP 2 +:+ py_str b in
  write_record fuel warc_headers "application/http;msgtype=request" content.

Definition write (fuel : nat) (response request : Obj.t) : M unit :=
  if negb (bool_decide (is_Some (Obj.status response))) then
    raise (ValueError "Response missing HTTP status")
  else if negb (bool_decide (is_Some (Obj.body response))) then
    raise (ValueError "Response missing body")
  else if negb (bool_decide (is_Some (Obj.method request))) then
    raise (ValueError "Request missing method")
  else if negb (bool_decide (is_Some (Obj.meta request))) then
    raise (ValueError "Request missing meta")
  else
    m <- lift (getattr "meta" (Obj.meta request));;
    if negb (truthy (default PNone (m !! "WARC-Date"))) then
      raise (ValueError "Request missing WARC-Date")
    else
      rid <- record_id;;
      u <- lift (getattr "url" (Obj.url response));;
      date <- match m !! "WARC-Date" with
              | Some d => ret d
              | None => raise (KeyError "WARC-Date")
              end;;
      let warc_headers := response_warc_headers u date rid in
      hs <- get_headers response;;
      b <- lift (getattr "body" (Obj.body response));;
      let content := hs +:+ Py.str_mul WARC_LINE_SEP 2 +:+ py_str b in
      write_record fuel warc_headers "application/http;msgtype=response" content;;
      write_request fuel request rid.

(** ** WarcioDownloaderMiddleware (src/scrapy_warcio/middlewares.py) *)

(** [request.meta['WARC-Date'] = warc_date()]; the request object is
    shared with the later [process_response], so the stamped request is
    returned to be passed on. *)
Definition process_request (request : Obj.t) : M Obj.t :=
  date <- ask (warc_date E);;
  m <- lift (getattr "meta" (Obj.meta request));;
  ret (Obj.mk (Obj.url request) (Obj.method request) (Obj.status request)
              (Obj.body request) (Obj.headers request)
              (Some (<["WARC-Date" := PStr date]> m))).

Definition process_response (fuel : nat) (request response : Obj.t) : M Obj.t :=
  write fuel response request;;
  ret response.

End ScrapyWarcIo.

(** ** Vocabulary of the statements *)

(** The entry [name] of the header list a record was written with.
    [write_record] hands that list to [create_warc_record] as
    [http_headers]: the entry lies in the HTTP header block of the record
    and is not one of its WARC headers. *)
Definition header_of (r : WarcRecord) (name : string) : option PyVal :=
  get_header (sh_headers (http_headers r)) name.

(** The kind of a record: the [WARC-Type] its builder gave it. *)
Definition kind (r : WarcRecord) : option PyVal := header_of r "WARC-Type".

Definition is_warcinfo (r : WarcRecord) : bool :=
  bool_decide (kind r = Some (PStr "warcinfo")).

(** The records appended between two states of the world. *)
Definition new_events (st st' : St) : list (string * WarcRecord) :=
  drop (length (trace (world st))) (trace (world st')).

(** The exchange records among some events: everything but segment-info. *)
Definition exchange_events (evs : list (string * WarcRecord)) : list (string * WarcRecord) :=
  filter (fun ev => is_warcinfo ev.2 = false) evs.

(** The state after one call to the clock or to a generator. *)
Definition ticked (st : St) : St :=
  {| self := self st; world := next_tick (world st) |}.

(** Lines 56 to 65 of [bump_serial]: the size refresh and the decision. *)
Definition refreshed (st : St) : St :=
  match warc_fname (self st) with
  | Some p =>
      match fs (world st) !! p with
      | Some n => {| self := set_warc_size (node_size n) (self st); world := world st |}
      | None => st
      end
  | None => st
  end.

Definition decides_rotation (st : St) (content_bytes : Z) : bool :=
  match warc_fname (self st) with
  | None => true
  | Some p =>
      match fs (world st) !! p with
      | Some n => (max_warc_size (config (self st)) <=? node_size n + content_bytes)%Z
      | None => false
      end
  end.

(** The file name and the path [warcfile] computes for a writer at a
    given tick of the clock. *)
Definition segment_name (E : Env) (w : Writer) (t : nat) : string :=
  Py.join "-" [warc_prefix (config w); strftime_now E t;
               Py.zfill (Py.str_int (warc_count w)) WARC_SERIAL_ZFILL;
               Py.split_head "." (gethostname E)] +:+ ".warc.gz".

Definition segment_path (E : Env) (w : Writer) (t : nat) : string :=
  Py.path_join (warc_dest (config w)) (segment_name E w t).

(** The destination check of [warcfile] passes. *)
Definition dest_ok (st : St) : bool :=
  negb (truthy (PStr (warc_dest (config (self st))))
        && negb (bool_decide (is_Some (fs (world st) !! warc_dest (config (self st)))))).

(** A computation that reads the state and never changes it. *)
Definition reads_only {A} (m : M A) : Prop :=
  forall st,
    match m st with
    | Ret _ st' => st' = st
    | Raise _ st' => st' = st
    | OutOfFuel => False
    end.

(** The segment-info record of the segment [f] begun at tick [t]. *)
Definition warcinfo_record (E : Env) (cfg : Config) (f : string) (t : nat) : WarcRecord :=
  make_record
    (warcinfo_headers (warc_date E (S t)) (Some f)
       ("<urn:uuid:" +:+ uuid1 E (S (S t)) +:+ ">"))
    (Py.join WARC_LINE_SEP (warcinfo_content E cfg)).

(** The state a successful rotation leaves: new name, one more segment,
    and the new file holding the segment-info record alone. *)
Definition rotated (E : Env) (st : St) : St :=
  let t := tick (world st) in
  let f := segment_path E (self st) t in
  let r := warcinfo_record E (config (self st)) f t in
  {| self := set_warc_count (warc_count (self st) + 1)
               (set_warc_fname (Some f) (self (refreshed st)));
     world := append_frame f
                {| frame_record := r; frame_len := gzip_len E (S (S (S t))) r |}
                (next_tick (next_tick (next_tick (world st)))) |}.

(** The frame of a record written at tick [t]. *)
Definition frame_at (E : Env) (t : nat) (r : WarcRecord) : Frame :=
  {| frame_record := r; frame_len := gzip_len E t r |}.

(** The state [append_record] leaves when it appends [r] to [p]. *)
Definition appended (E : Env) (p : string) (r : WarcRecord) (st : St) : St :=
  {| self := self st;
     world := append_frame p (frame_at E (tick (world st)) r) (world st) |}.

(** The identifier [__record_id] returns at tick [t]. *)
Definition record_id_at (E : Env) (t : nat) : string :=
  "<urn:uuid:" +:+ uuid1 E t +:+ ">".

(** ** A concrete environment and concrete exchanges *)

(** The size CPython 3.8 to 3.11 reports for an ASCII string, a constant
    compressed size, and URLs whose path is the root, but for one with an
    unclosed bracket, which [urlparse] rejects. *)
Definition env0 : Env :=
  {| gethostname := "crawler01.example.org";
     strftime_now := fun _ => "20240101000000";
     warc_date := fun _ => "2024-01-01T00:00:00Z";
     uuid1 := fun t => pretty (Z.of_nat t);
     getsizeof := fun s => 49 + Z.of_nat (String.length s);
     gzip_len := fun _ _ => 300;
     urlparse_path := fun u =>
       if String.eqb u "http://[::1" then inl "Invalid IPv6 URL" else inr "/";
     repr_bytes := fun b => "b'" +:+ b +:+ "'";
     scrapy_version := "2.11.0" |}.

Definition small_config : Config :=
  {| warc_spec := warc_spec default_config;
     max_warc_size := 10000;
     collection := "quotes";
     description := "description";
     operator := "john@doe.nl";
     robots := "obey";
     user_agent := "";
     warc_prefix := "rec";
     warc_dest := "" |}.

Definition stamp : gmap string PyVal := {[ "WARC-Date" := PStr "2024-01-01T00:00:00Z" ]}.

Definition response0 : Obj.t :=
  Obj.mk (Some "http://quotes.toscrape.com/") None (Some (PInt 200)) (Some (PBytes "ok"))
         (Some [(PBytes "Content-Type", PBytes "text/html")]) None.

Definition request0 : Obj.t :=
  Obj.mk (Some "http://quotes.toscrape.com/") (Some "GET") None (Some (PBytes ""))
         (Some []) (Some stamp).

(** A response without [status], and an object with headers only. *)
Definition response_no_status : Obj.t :=
  Obj.mk (Some "http://quotes.toscrape.com/") None None (Some (PBytes "ok")) (Some []) None.

Definition headers_only : Obj.t :=
  Obj.mk None None None None (Some []) None.

(** An object with a URL and headers, and neither a method nor a
    status. *)
Definition url_and_headers : Obj.t :=
  Obj.mk (Some "http://quotes.toscrape.com/") None None None (Some []) None.

(** An object with headers, a method and a status. *)
Definition both_shapes : Obj.t :=
  Obj.mk (Some "http://quotes.toscrape.com/") (Some "GET") (Some (PInt 200)) None
         (Some [(PBytes "Accept", PBytes "*/*")]) None.

(** The same object without a [url] attribute, and with a URL whose
    bracket is not closed. *)
Definition both_shapes_no_url : Obj.t :=
  Obj.mk None (Some "GET") (Some (PInt 200)) None
         (Some [(PBytes "Accept", PBytes "*/*")]) None.

Definition both_shapes_bad_url : Obj.t :=
  Obj.mk (Some "http://[::1") (Some "GET") (Some (PInt 200)) None
         (Some [(PBytes "Accept", PBytes "*/*")]) None.

Definition segment0 : string := "rec-20240101000000-00000-crawler01.warc.gz".
Definition segment1 : string := "rec-20240101000000-00001-crawler01.warc.gz".

Definition writer_with (fname : option string) (count : Z) : Writer :=
  {| warc_fname := fname; warc_count := count; warc_size := 0;
     max_serial := 99999; config := small_config |}.

(** A writer that has written nothing yet, in an empty directory. *)
Definition st_fresh : St :=
  {| self := writer_with None 0;
     world := {| fs := ∅; tick := 0; trace := [] |} |}.

(** A writer on its first segment, which holds [size] bytes on disk. *)
Definition earlier_frame (size : Z) : Frame :=
  {| frame_record := warcinfo_record env0 small_config segment0 0; frame_len := size |}.

Definition st_segment (size : Z) : St :=
  {| self := writer_with (Some segment0) 1;
     world := {| fs := {[ segment0 := File [earlier_frame size] ]}; tick := 0; trace := [] |} |}.

(** The same writer when a file already lies at the next segment's path. *)
Definition st_collision : St :=
  {| self := writer_with (Some segment0) 1;
     world := {| fs := {[ segment0 := File [earlier_frame 9990];
                          segment1 := File [earlier_frame 120] ]};
                 tick := 0; trace := [] |} |}.

(** A writer whose serial counter has passed the last five-digit serial. *)
Definition st_exhausted : St :=
  {| self := writer_with None 100000;
     world := {| fs := ∅; tick := 0; trace := [] |} |}.


(** ** Vocabulary of the further statements *)

(** What holds of the state a computation ends in, whether it returned
    or raised. *)
Definition ends_in {A} (r : Res A) (P : St -> Prop) : Prop :=
  match r with
  | Ret _ s => P s
  | Raise _ s => P s
  | OutOfFuel => True
  end.

(** A directory stays as it is; a file keeps its frames and may gain
    some at its end. *)
Definition node_extends (nd nd' : Node) : Prop :=
  match nd with
  | Dir sz => nd' = Dir sz
  | File frs => exists extra, nd' = File (frs ++ extra)
  end.

(** The later state has every path of the earlier one, each file with
    its earlier frames as a prefix; the log and the clock have only
    advanced, the serial counter has not decreased, and the limits and
    the configuration are the same. *)
Definition append_only (st st' : St) : Prop :=
  (forall p nd, fs (world st) !! p = Some nd ->
     exists nd', fs (world st') !! p = Some nd' /\ node_extends nd nd') /\
  (exists evs, trace (world st') = (trace (world st) ++ evs)%list) /\
  (tick (world st) <= tick (world st'))%nat /\
  (warc_count (self st) <= warc_count (self st'))%Z /\
  max_serial (self st') = max_serial (self st) /\
  config (self st') = config (self st).

(** A computation whose outcome does not depend on the state and that
    leaves the state as it is. *)
Definition stateless {A} (m : M A) : Prop :=
  exists r : Err + A, forall st, m st = lift r st.

(** A computation that raises only exceptions with the property [P]. *)
Definition raises_only {A} (P : Err -> Prop) (m : M A) : Prop :=
  forall st e st', m st = Raise e st' -> P e.

Definition is_attribute_error (e : Err) : bool :=
  match e with
  | AttributeError _ => true
  | _ => false
  end.

(** The state in which [bump_serial] fails when the segment-info record
    of the new segment [f] cannot be written: the name is already set. *)
Definition renamed (f : string) (st : St) : St :=
  {| self := set_warc_fname (Some f) (self (refreshed st));
     world := next_tick (next_tick (next_tick (world st))) |}.

(** The segment-info records among some events. *)
Definition info_events (evs : list (string * WarcRecord)) : list (string * WarcRecord) :=
  filter (fun ev => is_warcinfo ev.2 = true) evs.

(** The content [write] and [write_request] build from the rendered
    headers and the body. *)
Definition exchange_content (E : Env) (hs : string) (b : PyVal) : string :=
  hs +:+ Py.str_mul WARC_LINE_SEP 2 +:+ py_str E b.

(** One header line of [get_headers]. *)
Definition header_line (E : Env) (kv : PyVal * PyVal) : string :=
  py_str E kv.1 +:+ ": " +:+ py_str E kv.2.

(** The current segment file is on disk, and every file on disk begins
    with a segment-info record. *)
Definition segments_begun (st : St) : Prop :=
  (forall p, warc_fname (self st) = Some p -> is_Some (fs (world st) !! p)) /\
  (forall p frs, fs (world st) !! p = Some (File frs) ->
     exists fr rest, frs = fr :: rest /\ is_warcinfo (frame_record fr) = true).

(** A writer whose destination directory does not exist. *)
Definition st_no_dest : St :=
  {| self := {| warc_fname := None; warc_count := 0; warc_size := 0; max_serial := 99999;
                config := {| warc_spec := warc_spec default_config;
                             max_warc_size := 10000;
                             collection := "quotes";
                             description := "description";
                             operator := "john@doe.nl";
                             robots := "obey";
                             user_agent := "";
                             warc_prefix := "rec";
                             warc_dest := "/nonexistent" |} |};
     world := {| fs := ∅; tick := 0; trace := [] |} |}.

(** A writer whose destination [out] is a file, not a directory. *)
Definition st_dest_file : St :=
  {| self := {| warc_fname := None; warc_count := 0; warc_size := 0; max_serial := 99999;
                config := {| warc_spec := warc_spec default_config;
                             max_warc_size := 10000;
                             collection := "quotes";
                             description := "description";
                             operator := "john@doe.nl";
                             robots := "obey";
                             user_agent := "";
                             warc_prefix := "rec";
                             warc_dest := "out" |} |};
     world := {| fs := {[ "out" := File [] ]}; tick := 0; trace := [] |} |}.

(** A request without [url], and one stamped with a number. *)
Definition request_no_url : Obj.t :=
  Obj.mk None (Some "GET") None (Some (PBytes "")) None (Some stamp).

Definition request_int_date : Obj.t :=
  Obj.mk (Some "http://quotes.toscrape.com/") (Some "GET") None (Some (PBytes ""))
         (Some []) (Some {[ "WARC-Date" := PInt 20240101 ]}).

(** A request as the engine hands it to [process_request]: meta empty. *)
Definition request_unstamped : Obj.t :=
  Obj.mk (Some "http://quotes.toscrape.com/") (Some "GET") None (Some (PBytes ""))
         (Some []) (Some ∅).

Arguments Py.join : simpl never.
Arguments Py.path_join : simpl never.
Arguments Py.zfill : simpl never.
Arguments Py.str_int : simpl never.
Arguments warcinfo_headers : simpl never.
Arguments warcinfo_content : simpl never.
Arguments response_warc_headers : simpl never.
Arguments request_warc_headers : simpl never.
Arguments make_record : simpl never.
Arguments append_frame : simpl never.
Arguments segment_path : simpl never.
Arguments String.append : simpl never.

(** ** The Python helpers on some inputs *)

Example str_mul_9 : Py.str_mul "9" 5 = "99999".
Proof. reflexivity. Qed.

Example int_99999 : Py.int "99999" = Some 99999.
Proof. reflexivity. Qed.

Example zfill_7 : Py.zfill (Py.str_int 7) 5 = "00007".
Proof. reflexivity. Qed.

Example zfill_wide : Py.zfill (Py.str_int 100000) 5 = "100000".
Proof. reflexivity. Qed.

Example zfill_sign : Py.zfill (Py.str_int (-7)) 5 = "-0007".
Proof. reflexivity. Qed.

Example split_head_host : Py.split_head "." "crawler01.example.org" = "crawler01".
Proof. reflexivity. Qed.

Example path_join_plain : Py.path_join "/data/warc" "a.warc.gz" = "/data/warc/a.warc.gz".
Proof. reflexivity. Qed.

Example path_join_empty : Py.path_join "" "a.warc.gz" = "a.warc.gz".
Proof. reflexivity. Qed.

Example path_join_slash : Py.path_join "out/" "a.warc.gz" = "out/a.warc.gz".
Proof. reflexivity. Qed.

Example dirname_plain : Py.dirname "/data/warc/a.warc.gz" = "/data/warc".
Proof. reflexivity. Qed.

Example dirname_none : Py.dirname "a.warc.gz" = "".
Proof. reflexivity. Qed.

Example dirname_root : Py.dirname "/a.warc.gz" = "/".
Proof. reflexivity. Qed.

(** ** Basic facts *)

Lemma St_eta (st : St) : {| self := self st; world := world st |} = st.
Proof. by destruct st. Qed.

Lemma reads_only_ret {A} (a : A) : reads_only (ret a).
Proof. intros st. reflexivity. Qed.

Lemma reads_only_raise {A} (e : Err) : reads_only (@raise A e).
Proof. intros st. reflexivity. Qed.

Lemma reads_only_lift {A} (r : Err + A) : reads_only (lift r).
Proof. destruct r; intros st; reflexivity. Qed.

Lemma reads_only_gets {A} (f : St -> A) : reads_only (gets f).
Proof. intros st. reflexivity. Qed.

Lemma reads_only_bind {A B} (m : M A) (k : A -> M B) :
  reads_only m -> (forall a, reads_only (k a)) -> reads_only (bind m k).
Proof.
  intros Hm Hk st. unfold bind. specialize (Hm st).
  destruct (m st) as [a st1|e st1|]; subst; try done.
  apply Hk.
Qed.

Lemma reads_only_for_each {A B} (l : list A) (f : A -> M B) :
  (forall x, reads_only (f x)) -> reads_only (for_each l f).
Proof.
  intros Hf. induction l as [|x l IH]; simpl.
  - apply reads_only_ret.
  - apply reads_only_bind; [apply Hf|]. intros y.
    apply reads_only_bind; [apply IH|]. intros ys. apply reads_only_ret.
Qed.

Lemma reads_only_get_headers (E : Env) (o : Obj.t) : reads_only (get_headers E o).
Proof.
  unfold get_headers. destruct (Obj.headers o) as [hs|]; [|apply reads_only_ret].
  apply reads_only_bind.
  - destruct (Obj.method o).
    + apply reads_only_bind; [apply reads_only_lift|]. intros u.
      apply reads_only_bind; [|intros; apply reads_only_ret].
      destruct (urlparse_path E u); [apply reads_only_raise|apply reads_only_ret].
    + destruct (Obj.status o); [apply reads_only_ret|apply reads_only_raise].
  - intros line. apply reads_only_bind; [|intros; apply reads_only_ret].
    apply reads_only_for_each. intros key.
    destruct (getitem hs key); [apply reads_only_ret|apply reads_only_raise].
Qed.

(** Running a read-only computation: it returns or raises in the state
    it started from. *)
Lemma reads_only_inv {A} (m : M A) (st : St) :
  reads_only m ->
  (exists a, m st = Ret a st) \/ (exists e, m st = Raise e st).
Proof.
  intros H. specialize (H st). destruct (m st) as [a st1|e st1|]; subst; try done.
  - left. by exists a.
  - right. by exists e.
Qed.

Lemma ask_eq (oracle : nat -> string) (st : St) :
  ask oracle st = Ret (oracle (tick (world st))) (ticked st).
Proof. reflexivity. Qed.

Lemma record_id_eq (E : Env) (st : St) :
  record_id E st = Ret ("<urn:uuid:" +:+ uuid1 E (tick (world st)) +:+ ">") (ticked st).
Proof. reflexivity. Qed.

(** [warcfile] by cases: the serial check, the destination check and
    the collision check, in that order; only the clock moves. *)
Lemma warcfile_cases (E : Env) (st : St) :
  warcfile E st =
    if (max_serial (self st) <? warc_count (self st))%Z then
      Raise (ValueError ("warc_count: " +:+ Py.str_int (warc_count (self st))
                         +:+ " exceeds max_serial: " +:+ Py.str_int (max_serial (self st)))) st
    else if negb (dest_ok st) then
      Raise (IOError ("warc_dest not found: " +:+ warc_dest (config (self st)))) (ticked st)
    else
      let fname := segment_path E (self st) (tick (world st)) in
      if bool_decide (is_Some (fs (world st) !! fname)) then
        Raise (IOError ("WARC file exists: " +:+ fname)) (ticked st)
      else Ret fname (ticked st).
Proof.
  unfold warcfile, bind, gets, dest_ok. simpl.
  destruct (max_serial (self st) <? warc_count (self st))%Z; [reflexivity|].
  unfold path_exists, gets. simpl.
  rewrite negb_involutive.
  destruct (_ && _); [reflexivity|].
  unfold segment_path, segment_name.
  destruct (bool_decide _); reflexivity.
Qed.

(** Reading the frames of a file after it was written or while it is missing. *)
Lemma frames_at_insert (p : string) (frs : list Frame) (m : gmap string Node) :
  frames_at p (<[p := File frs]> m) = frs.
Proof. unfold frames_at. by rewrite lookup_insert_eq. Qed.

Lemma frames_at_None (p : string) (m : gmap string Node) :
  m !! p = None -> frames_at p m = [].
Proof. unfold frames_at. by intros ->. Qed.

Lemma append_frame_created (p : string) (fr : Frame) (w : World) :
  fs w !! p = None ->
  append_frame p fr (with_fs (insert p (File [])) w) = append_frame p fr w.
Proof.
  intros Hp. unfold append_frame, with_fs. simpl.
  rewrite frames_at_insert, (frames_at_None _ _ Hp), insert_insert_eq.
  reflexivity.
Qed.

(** [append_record] either fails in the state it started from, or
    appends exactly one frame to the file [self.warc_fname], creating
    the file when it is missing. *)
Lemma append_record_inv (E : Env) (hs : list (string * PyVal)) (c : string) (st : St) :
  match append_record E hs c st with
  | Ret _ st' =>
      exists p,
        warc_fname (self st) = Some p /\
        (forall sz, fs (world st) !! p <> Some (Dir sz)) /\
        st' = {| self := self st;
                 world := append_frame p
                   {| frame_record := make_record hs c;
                      frame_len := gzip_len E (tick (world st)) (make_record hs c) |}
                   (world st) |}
  | Raise _ st' => st' = st
  | OutOfFuel => False
  end.
Proof.
  unfold append_record. unfold bind at 1.
  assert (Hro : reads_only (for_each hs (fun kv : string * PyVal =>
            val <- lift (bytes_utf8 kv.2);; ret (kv.1, val)))).
  { apply reads_only_for_each. intros kv.
    apply reads_only_bind; [apply reads_only_lift|]. intros; apply reads_only_ret. }
  destruct (reads_only_inv _ st Hro) as [[l ->]|[e ->]]; [|reflexivity].
  unfold bind, gets. simpl.
  destruct (warc_fname (self st)) as [p|] eqn:Hf; [|reflexivity].
  unfold open_ab, bind, gets. simpl.
  destruct (fs (world st) !! p) as [[sz|frs]|] eqn:Hp; simpl.
  - reflexivity.
  - exists p. split; [done|]. split; [congruence|].
    unfold writer_write_record, bind, gets, set_world. simpl. reflexivity.
  - destruct (String.eqb (Py.dirname p) "").
    + exists p. split; [done|]. split; [congruence|].
      unfold writer_write_record, bind, gets, set_world. simpl.
      by rewrite append_frame_created.
    + destruct (fs (world st) !! Py.dirname p) as [[sz|frs]|]; simpl; try reflexivity.
      exists p. split; [done|]. split; [congruence|].
      unfold writer_write_record, bind, gets, set_world. simpl.
      by rewrite append_frame_created.
Qed.

(** Inside [bump_serial] the file name is set and nothing exists at it:
    the decision is negative and the state is left as it is. *)
Lemma bump_serial_with_missing (E : Env)
    (wr : list (string * PyVal) -> string -> string -> M unit)
    (n : Z) (st : St) (p : string) :
  warc_fname (self st) = Some p ->
  fs (world st) !! p = None ->
  bump_serial_with E wr n st = Ret tt st.
Proof.
  intros Hf Hp. unfold bump_serial_with, bind, gets, path_exists. simpl.
  rewrite Hf. simpl. unfold gets. rewrite Hp. simpl.
  reflexivity.
Qed.

(** With the file name set and no file there, [write_record] is
    [append_record], whatever fuel is left. *)
Lemma write_record_fresh (E : Env) (k : nat) (hs : list (string * PyVal))
    (ct c : string) (st : St) (p : string) :
  warc_fname (self st) = Some p ->
  fs (world st) !! p = None ->
  write_record E (S k) hs ct c st = append_record E hs c st.
Proof.
  intros Hf Hp. simpl. unfold bind at 1.
  by rewrite (bump_serial_with_missing E _ _ _ p Hf Hp).
Qed.

(** [bump_serial] by cases: the refresh, the decision, and on a positive
    decision the new name, the segment-info record and the counter. *)
Lemma bump_serial_with_cases (E : Env)
    (wr : list (string * PyVal) -> string -> string -> M unit)
    (n : Z) (st : St) :
  bump_serial_with E wr n st =
    if decides_rotation st n then
      (f <- warcfile E;;
       set_self (set_warc_fname (Some f));;
       write_warcinfo_with E wr;;
       set_self (fun w => set_warc_count (warc_count w + 1) w))%py (refreshed st)
    else Ret tt (refreshed st).
Proof.
  unfold bump_serial_with, decides_rotation, refreshed.
  unfold bind at 1. unfold gets at 1.
  destruct (warc_fname (self st)) as [p|] eqn:Hf.
  - unfold bind at 1. unfold bind at 1. unfold path_exists, gets.
    destruct (fs (world st) !! p) as [nd|] eqn:Hp.
    + rewrite bool_decide_eq_true_2 by eauto.
      unfold stat_size, bind, gets, set_self. simpl. rewrite Hp. simpl.
      destruct (max_warc_size (config (self st)) <=? node_size nd + n)%Z; reflexivity.
    + rewrite bool_decide_eq_false_2 by (intros [x Hx]; discriminate).
      simpl. reflexivity.
  - unfold bind at 1. simpl. reflexivity.
Qed.

(** The segment-info record [write_warcinfo] builds for the file [f]
    when it starts at tick [t]. *)
Lemma write_warcinfo_with_eq (E : Env)
    (wr : list (string * PyVal) -> string -> string -> M unit) (st : St) :
  write_warcinfo_with E wr st =
    wr (warcinfo_headers (warc_date E (tick (world st))) (warc_fname (self st))
          ("<urn:uuid:" +:+ uuid1 E (S (tick (world st))) +:+ ">"))
       "application/warc-fields"
       (Py.join WARC_LINE_SEP (warcinfo_content E (config (self st))))
       (ticked (ticked st)).
Proof. reflexivity. Qed.

Lemma bind_ext_on {A B} (m : M A) (k1 k2 : A -> M B) (st : St) :
  (forall a st', m st = Ret a st' -> k1 a st' = k2 a st') ->
  bind m k1 st = bind m k2 st.
Proof.
  intros H. unfold bind. destruct (m st) as [a st'|e st'|] eqn:Hm; try reflexivity.
  by apply H.
Qed.

(** When [warcfile] returns, only the clock has moved, and the name it
    returns is the computed path, at which nothing exists. *)
Lemma warcfile_Ret (E : Env) (st st' : St) (f : string) :
  warcfile E st = Ret f st' ->
  st' = ticked st /\
  f = segment_path E (self st) (tick (world st)) /\
  fs (world st) !! f = None /\
  (warc_count (self st) <= max_serial (self st))%Z /\
  dest_ok st = true.
Proof.
  rewrite warcfile_cases.
  destruct (_ <? _)%Z eqn:Hov; [discriminate|].
  destruct (dest_ok st); simpl; [|discriminate].
  destruct (bool_decide _) eqn:Hex; [discriminate|].
  intros [= <- <-]. apply bool_decide_eq_false in Hex.
  repeat split; try done; [|lia].
  destruct (fs _ !! _) eqn:Hl; [|reflexivity]. exfalso; eauto.
Qed.

(** In the rotation of [bump_serial] the nested [write_record] finds the
    new name set and no file there: it only appends. *)
Lemma bump_serial_fuel (E : Env) (k : nat) (n : Z) (st : St) :
  bump_serial_with E (write_record E (S k)) n st =
  bump_serial_with E (fun hs _ c => append_record E hs c) n st.
Proof.
  rewrite !bump_serial_with_cases.
  destruct (decides_rotation st n); [|reflexivity].
  apply bind_ext_on. intros f st1 Hwf.
  apply warcfile_Ret in Hwf as (-> & _ & Hnone & _).
  apply bind_ext_on. intros [] st2 [= <-].
  unfold bind. rewrite !write_warcinfo_with_eq.
  erewrite write_record_fresh; [reflexivity|simpl; reflexivity|].
  simpl. exact Hnone.
Qed.

(** Two units of fuel are enough: with more the result is the same. *)
Lemma write_record_flat (E : Env) (k : nat) (hs : list (string * PyVal))
    (ct c : string) (st : St) :
  write_record E (S (S k)) hs ct c st =
  (bump_serial_with E (fun hs _ c => append_record E hs c) (getsizeof E c);;
   append_record E hs c)%py st.
Proof.
  change (write_record E (S (S k)) hs ct c st)
    with ((bump_serial_with E (write_record E (S k)) (getsizeof E c);;
           append_record E hs c)%py st).
  unfold bind. by rewrite bump_serial_fuel.
Qed.

Lemma write_record_fuel_irrelevant (E : Env) (fuel : nat) (hs : list (string * PyVal))
    (ct c : string) (st : St) :
  (2 <= fuel)%nat ->
  write_record E fuel hs ct c st = write_record E 2 hs ct c st.
Proof.
  intros Hf. destruct fuel as [|[|k]]; [lia|lia|].
  by rewrite !write_record_flat.
Qed.

Lemma refreshed_world (st : St) : world (refreshed st) = world st.
Proof.
  unfold refreshed. destruct (warc_fname (self st)); [|reflexivity].
  destruct (fs (world st) !! s); reflexivity.
Qed.

Lemma refreshed_self (st : St) :
  self (refreshed st) = set_warc_size (warc_size (self (refreshed st))) (self st).
Proof.
  unfold refreshed. destruct (warc_fname (self st)).
  - destruct (fs (world st) !! s); simpl; [reflexivity|]. by destruct (self st).
  - by destruct (self st).
Qed.

Lemma refreshed_fields (st : St) :
  warc_fname (self (refreshed st)) = warc_fname (self st) /\
  warc_count (self (refreshed st)) = warc_count (self st) /\
  max_serial (self (refreshed st)) = max_serial (self st) /\
  config (self (refreshed st)) = config (self st).
Proof. rewrite refreshed_self. done. Qed.

Lemma refreshed_dest_ok (st : St) : dest_ok (refreshed st) = dest_ok st.
Proof.
  destruct (refreshed_fields st) as (_ & _ & _ & Hc).
  unfold dest_ok. by rewrite refreshed_world, Hc.
Qed.

Lemma refreshed_segment_path (E : Env) (st : St) (t : nat) :
  segment_path E (self (refreshed st)) t = segment_path E (self st) t.
Proof.
  destruct (refreshed_fields st) as (_ & Hn & _ & Hc).
  unfold segment_path, segment_name. by rewrite Hn, Hc.
Qed.

(** What a call of [bump_serial] can do. *)
Lemma bump_serial_inv (E : Env) (n : Z) (st : St) :
  match bump_serial_with E (fun hs _ c => append_record E hs c) n st with
  | Ret _ st' =>
      (decides_rotation st n = false /\ st' = refreshed st) \/
      (decides_rotation st n = true /\
       (warc_count (self st) <= max_serial (self st))%Z /\
       dest_ok st = true /\
       fs (world st) !! segment_path E (self st) (tick (world st)) = None /\
       st' = rotated E st)
  | Raise _ st' =>
      decides_rotation st n = true /\
      fs (world st') = fs (world st) /\
      trace (world st') = trace (world st) /\
      warc_count (self st') = warc_count (self st)
  | OutOfFuel => False
  end.
Proof.
  rewrite bump_serial_with_cases.
  destruct (decides_rotation st n) eqn:Hd; [|left; done].
  destruct (refreshed_fields st) as (Hfn & Hcnt & Hmax & Hcfg).
  assert (Hw := refreshed_world st).
  unfold bind at 1.
  destruct (warcfile E (refreshed st)) as [f st1|e st1|] eqn:Hwf.
  - apply warcfile_Ret in Hwf as (-> & -> & Hnone & Hle & Hdo).
    rewrite refreshed_dest_ok in Hdo. rewrite Hw in Hnone |- *.
    rewrite refreshed_segment_path in Hnone |- *. rewrite Hcnt, Hmax in Hle.
    unfold bind at 1. unfold set_self at 1. unfold bind at 1.
    rewrite write_warcinfo_with_eq.
    match goal with |- context [append_record E ?hs ?c ?s] =>
      pose proof (append_record_inv E hs c s) as Hinv;
      destruct (append_record E hs c s) as [[] st3|e st3|]
    end.
    + destruct Hinv as (p & Hp & _ & ->). cbn in Hp. injection Hp as <-.
      right. repeat (split; [done|]).
      unfold set_self, rotated, warcinfo_record. cbn. rewrite Hw, Hcfg, Hcnt.
      reflexivity.
    + subst st3. cbn. rewrite Hw. done.
    + done.
  - rewrite warcfile_cases in Hwf. rewrite Hw in Hwf.
    destruct (_ <? _)%Z.
    { injection Hwf as <- <-. rewrite Hw. done. }
    destruct (negb _).
    { injection Hwf as <- <-. cbn. rewrite Hw. done. }
    cbn in Hwf. destruct (bool_decide _); [|discriminate].
    injection Hwf as <- <-. cbn. rewrite Hw. done.
  - rewrite warcfile_cases in Hwf.
    destruct (_ <? _)%Z; [discriminate|]. destruct (negb _); [discriminate|].
    cbn in Hwf. destruct (bool_decide _); discriminate.
Qed.

Lemma append_record_Ret (E : Env) (hs : list (string * PyVal)) (c : string) (st st' : St) :
  append_record E hs c st = Ret tt st' ->
  exists p,
    warc_fname (self st) = Some p /\
    (forall sz, fs (world st) !! p <> Some (Dir sz)) /\
    st' = appended E p (make_record hs c) st.
Proof.
  intros H. pose proof (append_record_inv E hs c st) as Hinv.
  rewrite H in Hinv. exact Hinv.
Qed.

Lemma bind_Ret_inv {A B} (m : M A) (k : A -> M B) (st st' : St) (b : B) :
  bind m k st = Ret b st' ->
  exists a st1, m st = Ret a st1 /\ k a st1 = Ret b st'.
Proof.
  unfold bind. destruct (m st) as [a st1|e st1|]; try discriminate.
  intros H. by exists a, st1.
Qed.

Lemma rotated_fname (E : Env) (st : St) :
  warc_fname (self (rotated E st)) = Some (segment_path E (self st) (tick (world st))).
Proof. reflexivity. Qed.

(** What a returning call of [write_record] has done: either it kept the
    current segment and appended the record to it, or it began the next
    segment with its segment-info record and appended the record after. *)
Lemma write_record_Ret (E : Env) (fuel : nat) (hs : list (string * PyVal))
    (ct c : string) (st st' : St) :
  (2 <= fuel)%nat ->
  write_record E fuel hs ct c st = Ret tt st' ->
  (decides_rotation st (getsizeof E c) = false /\
   exists p,
     warc_fname (self st) = Some p /\
     (forall sz, fs (world st) !! p <> Some (Dir sz)) /\
     st' = appended E p (make_record hs c) (refreshed st)) \/
  (decides_rotation st (getsizeof E c) = true /\
   (warc_count (self st) <= max_serial (self st))%Z /\
   dest_ok st = true /\
   fs (world st) !! segment_path E (self st) (tick (world st)) = None /\
   st' = appended E (segment_path E (self st) (tick (world st)))
           (make_record hs c) (rotated E st)).
Proof.
  intros Hfuel. destruct fuel as [|[|k]]; [lia|lia|]. rewrite write_record_flat.
  intros H. apply bind_Ret_inv in H as ([] & st1 & Hb & Ha).
  pose proof (bump_serial_inv E (getsizeof E c) st) as Hinv. rewrite Hb in Hinv.
  apply append_record_Ret in Ha as (p & Hp & Hnd & ->).
  destruct Hinv as [[Hd ->]|(Hd & Hle & Hdo & Hnone & ->)].
  - left. split; [done|]. exists p.
    destruct (refreshed_fields st) as (Hfn & _).
    rewrite Hfn in Hp. rewrite refreshed_world in Hnd. done.
  - right. rewrite rotated_fname in Hp. injection Hp as <-. done.
Qed.

(** [write_record] never runs out of fuel when it is given two units. *)
Lemma write_record_total (E : Env) (fuel : nat) (hs : list (string * PyVal))
    (ct c : string) (st : St) :
  (2 <= fuel)%nat ->
  write_record E fuel hs ct c st <> OutOfFuel.
Proof.
  intros Hfuel. destruct fuel as [|[|k]]; [lia|lia|]. rewrite write_record_flat.
  unfold bind.
  pose proof (bump_serial_inv E (getsizeof E c) st) as Hinv.
  destruct (bump_serial_with _ _ _ _) as [[] st1|e st1|]; [|done|done].
  pose proof (append_record_inv E hs c st1) as Ha.
  destruct (append_record E hs c st1); done.
Qed.

Lemma appended_trace (E : Env) (p : string) (r : WarcRecord) (st : St) :
  trace (world (appended E p r st)) = (trace (world st) ++ [(p, r)])%list.
Proof. reflexivity. Qed.

Lemma rotated_trace (E : Env) (st : St) :
  trace (world (rotated E st)) =
  (trace (world st) ++
    [(segment_path E (self st) (tick (world st)),
      warcinfo_record E (config (self st)) (segment_path E (self st) (tick (world st)))
        (tick (world st)))])%list.
Proof. reflexivity. Qed.

Lemma warcinfo_record_kind (E : Env) (cfg : Config) (f : string) (t : nat) :
  is_warcinfo (warcinfo_record E cfg f t) = true.
Proof. reflexivity. Qed.

(** The records a returning [write_record] adds to the log: the record
    itself, preceded by nothing or by the segment-info record of the
    segment it begins, all in the file the writer ends on. *)
Lemma write_record_trace (E : Env) (fuel : nat) (hs : list (string * PyVal))
    (ct c : string) (st st' : St) :
  (2 <= fuel)%nat ->
  write_record E fuel hs ct c st = Ret tt st' ->
  exists p pre,
    warc_fname (self st') = Some p /\
    trace (world st') = (trace (world st) ++ pre ++ [(p, make_record hs c)])%list /\
    exchange_events pre = [] /\
    (decides_rotation st (getsizeof E c) = false -> pre = [] /\ warc_fname (self st) = Some p).
Proof.
  intros Hfuel H.
  apply (write_record_Ret _ _ _ _ _ _ _ Hfuel) in H
    as [(Hd & p & Hp & _ & ->)|(Hd & _ & _ & _ & ->)].
  - exists p, []. rewrite appended_trace, refreshed_world. cbn.
    destruct (refreshed_fields st) as (-> & _). done.
  - eexists _, [_]. rewrite appended_trace, rotated_trace, <- app_assoc.
    split; [reflexivity|]. split; [reflexivity|]. split; [reflexivity|].
    rewrite Hd. discriminate.
Qed.

Lemma lift_getattr_Ret {A} (name : string) (o : option A) (st st' : St) (a : A) :
  lift (getattr name o) st = Ret a st' -> o = Some a /\ st' = st.
Proof. destruct o; cbn; [|discriminate]. by intros [= -> ->]. Qed.

Lemma get_headers_Ret (E : Env) (o : Obj.t) (st st' : St) (s : string) :
  get_headers E o st = Ret s st' -> st' = st.
Proof.
  intros H. pose proof (reads_only_get_headers E o st) as Hro.
  by rewrite H in Hro.
Qed.

(** A returning [write_request] has written one record, built from the
    request's URL and stamped date, a fresh identifier and the identifier
    it was given. *)
Lemma write_request_Ret (E : Env) (fuel : nat) (request : Obj.t) (cto : string)
    (st st' : St) :
  write_request E fuel request cto st = Ret tt st' ->
  exists u m d c,
    Obj.url request = Some u /\
    Obj.meta request = Some m /\
    m !! "WARC-Date" = Some d /\
    write_record E fuel
      (request_warc_headers u d (record_id_at E (tick (world st))) cto)
      "application/http;msgtype=request" c (ticked st) = Ret tt st'.
Proof.
  unfold write_request. intros H.
  apply bind_Ret_inv in H as (u & s1 & Hu & H).
  apply lift_getattr_Ret in Hu as [Hu ?]; subst.
  apply bind_Ret_inv in H as (m & s2 & Hm & H).
  apply lift_getattr_Ret in Hm as [Hm ?]; subst.
  apply bind_Ret_inv in H as (d & s3 & Hd & H).
  destruct (m !! "WARC-Date") as [d'|] eqn:Hmd; [|discriminate].
  injection Hd as ? ?; subst.
  apply bind_Ret_inv in H as (rid & s4 & Hrid & H).
  rewrite record_id_eq in Hrid. injection Hrid as ? ?; subst.
  apply bind_Ret_inv in H as (hs & s5 & Hhs & H).
  apply get_headers_Ret in Hhs; subst.
  apply bind_Ret_inv in H as (b & s6 & Hb & H).
  apply lift_getattr_Ret in Hb as [Hb ?]; subst.
  exists u, m, d. eexists. repeat (split; [done|]). exact H.
Qed.

(** A returning [write] has passed the five checks and has run
    [write_record] on the response headers, then [write_request] with the
    response's identifier. *)
Lemma write_Ret (E : Env) (fuel : nat) (response request : Obj.t) (st st' : St) :
  write E fuel response request st = Ret tt st' ->
  exists u m d c st1,
    Obj.url response = Some u /\
    Obj.meta request = Some m /\
    m !! "WARC-Date" = Some d /\
    truthy d = true /\
    write_record E fuel
      (response_warc_headers u d (record_id_at E (tick (world st))))
      "application/http;msgtype=response" c (ticked st) = Ret tt st1 /\
    write_request E fuel request (record_id_at E (tick (world st))) st1 = Ret tt st'.
Proof.
  unfold write. intros H.
  destruct (negb (bool_decide (is_Some (Obj.status response)))); [discriminate|].
  destruct (negb (bool_decide (is_Some (Obj.body response)))); [discriminate|].
  destruct (negb (bool_decide (is_Some (Obj.method request)))); [discriminate|].
  destruct (negb (bool_decide (is_Some (Obj.meta request)))); [discriminate|].
  apply bind_Ret_inv in H as (m & s1 & Hm & H).
  apply lift_getattr_Ret in Hm as [Hm ?]; subst.
  destruct (negb (truthy (default PNone (m !! "WARC-Date")))) eqn:Ht; [discriminate|].
  apply bind_Ret_inv in H as (rid & s2 & Hrid & H).
  rewrite record_id_eq in Hrid. injection Hrid as ? ?; subst.
  apply bind_Ret_inv in H as (u & s3 & Hu & H).
  apply lift_getattr_Ret in Hu as [Hu ?]; subst.
  apply bind_Ret_inv in H as (d & s4 & Hd & H).
  destruct (m !! "WARC-Date") as [d'|] eqn:Hmd; [|discriminate].
  injection Hd as ? ?; subst.
  apply bind_Ret_inv in H as (hs & s5 & Hhs & H).
  apply get_headers_Ret in Hhs; subst.
  apply bind_Ret_inv in H as (b & s6 & Hb & H).
  apply lift_getattr_Ret in Hb as [Hb ?]; subst.
  apply bind_Ret_inv in H as ([] & s7 & Hwr & H).
  exists u, m, d. eexists. eexists.
  repeat (split; [done|]). split.
  { cbn in Ht. by apply negb_false_iff in Ht. }
  split; [exact Hwr|exact H].
Qed.

Example segment_path_fresh : segment_path env0 (self st_fresh) 0 = segment0.
Proof. reflexivity. Qed.

Example segment_path_next : segment_path env0 (self (st_segment 900)) 0 = segment1.
Proof. reflexivity. Qed.

Example init_max_serial : init = inr (set_warc_count 0 {| warc_fname := None; warc_count := 0;
  warc_size := 0; max_serial := 99999; config := default_config |}).
Proof. reflexivity. Qed.

(** ** get_headers *)

Lemma getitem_key (hs : list (PyVal * PyVal)) (key : PyVal) :
  key ∈ map fst hs -> is_Some (getitem hs key).
Proof.
  induction hs as [|[k v] hs IH]; simpl.
  - intros H. by apply elem_of_nil in H.
  - intros H. destruct (decide (k = key)); [eauto|].
    apply elem_of_cons in H as [->|H]; [done|by apply IH].
Qed.

(** The loop over the header mapping never fails: every key it meets is
    a key of the mapping. *)
Lemma header_lines_Ret (E : Env) (hs : list (PyVal * PyVal)) (keys : list PyVal) (st : St) :
  (forall k, k ∈ keys -> is_Some (getitem hs k)) ->
  exists lines,
    length lines = length keys /\
    for_each keys (fun key =>
      match getitem hs key with
      | Some val => ret (py_str E key +:+ ": " +:+ py_str E val)
      | None => raise (KeyError (py_str E key))
      end) st = Ret lines st.
Proof.
  induction keys as [|k keys IH]; intros Hk.
  - by exists [].
  - destruct (Hk k) as [v Hv]; [by left|].
    destruct IH as (lines & Hlen & Hrun); [intros k' Hk'; apply Hk; by right|].
    exists ((py_str E k +:+ ": " +:+ py_str E v) :: lines). split; [simpl; by rewrite Hlen|].
    cbn [for_each]. unfold bind at 1. rewrite Hv. unfold ret at 1.
    unfold bind at 1. rewrite Hrun. reflexivity.
Qed.

(** [get_headers] by cases on the attributes its argument has. *)
Lemma get_headers_cases (E : Env) (o : Obj.t) (st : St) :
  match Obj.headers o with
  | None => get_headers E o st = Ret "" st
  | Some hs =>
      match Obj.method o, Obj.status o with
      | Some m, _ =>
          match Obj.url o with
          | Some u =>
              match urlparse_path E u with
              | inr path =>
                  exists lines,
                    length lines = length hs /\
                    get_headers E o st =
                      Ret (Py.join WARC_LINE_SEP
                             ((m +:+ " " +:+ path +:+ " HTTP/1.0") :: lines)) st
              | inl msg => get_headers E o st = Raise (ValueError msg) st
              end
          | None => get_headers E o st = Raise (AttributeError "url") st
          end
      | None, Some s =>
          exists lines,
            length lines = length hs /\
            get_headers E o st =
              Ret (Py.join WARC_LINE_SEP (("HTTP/1.0 " +:+ py_str E s) :: lines)) st
      | None, None =>
          get_headers E o st = Raise (ValueError "Unable to form http_line from record.") st
      end
  end.
Proof.
  unfold get_headers. destruct (Obj.headers o) as [hs|]; [|reflexivity].
  destruct (header_lines_Ret E hs (map fst hs) st) as (lines & Hlen & Hrun).
  { intros k. apply getitem_key. }
  rewrite length_map in Hlen.
  destruct (Obj.method o) as [m|].
  - destruct (Obj.url o) as [u|]; [|reflexivity].
    cbn [getattr lift]. unfold bind, ret, raise in *.
    destruct (urlparse_path E u) as [msg|path]; [reflexivity|].
    exists lines. split; [done|]. by rewrite Hrun.
  - destruct (Obj.status o) as [s|]; [|reflexivity].
    exists lines. split; [done|].
    unfold bind at 1. unfold ret at 1. unfold bind at 1. rewrite Hrun. reflexivity.
Qed.

(** C10: as long as [urlparse] has no error of its own with the very
    message of the error about the shape, [get_headers] raises
    [ValueError('Unable to form http_line from record.')] exactly when the
    record has headers but neither a method nor a status.  For a record
    with headers, a method and a status the test for the method comes
    first and the status is not looked at: the outcome is the one for the
    same record without a status.  That outcome is the rendering as a
    request, the first line being the method, the path of the URL and
    [HTTP/1.0], when the record has a URL that [urlparse] splits; it is
    the [AttributeError] of [record.url] when the record has no URL, and
    the [ValueError] of [urlparse] when the URL is malformed. *)
Theorem get_headers_shape_error (E : Env) (o : Obj.t) (st : St) :
  ((forall u, Obj.url o = Some u ->
      urlparse_path E u <> inl "Unable to form http_line from record.") ->
   ((exists st', get_headers E o st =
                 Raise (ValueError "Unable to form http_line from record.") st')
    <-> (is_Some (Obj.headers o) /\ Obj.method o = None /\ Obj.status o = None))) /\
  (forall hs m s,
     Obj.headers o = Some hs -> Obj.method o = Some m -> Obj.status o = Some s ->
     get_headers E o st =
       get_headers E (Obj.mk (Obj.url o) (Obj.method o) None (Obj.body o)
                             (Obj.headers o) (Obj.meta o)) st /\
     match Obj.url o with
     | None => get_headers E o st = Raise (AttributeError "url") st
     | Some u =>
         match urlparse_path E u with
         | inl msg => get_headers E o st = Raise (ValueError msg) st
         | inr path =>
             exists lines,
               length lines = length hs /\
               get_headers E o st =
                 Ret (Py.join WARC_LINE_SEP
                        ((m +:+ " " +:+ path +:+ " HTTP/1.0") :: lines)) st
         end
     end).
Proof.
  pose proof (get_headers_cases E o st) as Hc. split; [intros Hmsg; split|].
  - intros [st' H]. rewrite H in Hc.
    destruct (Obj.headers o) as [hs|]; [|discriminate].
    destruct (Obj.method o) as [m|].
    + destruct (Obj.url o) as [u|]; [|discriminate].
      specialize (Hmsg u eq_refl).
      destruct (urlparse_path E u) as [msg|path].
      * exfalso. apply Hmsg. congruence.
      * destruct Hc as (? & _ & ?); discriminate.
    + destruct (Obj.status o); [destruct Hc as (? & _ & ?); discriminate|].
      eauto.
  - intros ([hs Hh] & Hm & Hs). rewrite Hh, Hm, Hs in Hc. eauto.
  - intros hs m s Hh Hm Hs. rewrite Hh, Hm in Hc. split.
    + unfold get_headers. cbn [Obj.headers Obj.method Obj.url]. by rewrite Hh, Hm.
    + exact Hc.
Qed.

Lemma get_headers_shape_error_witness :
  (forall u, Obj.url url_and_headers = Some u ->
     urlparse_path env0 u <> inl "Unable to form http_line from record.") /\
  (exists st', get_headers env0 url_and_headers st_fresh =
       Raise (ValueError "Unable to form http_line from record.") st') /\
  ~ (exists st', get_headers env0 both_shapes st_fresh =
       Raise (ValueError "Unable to form http_line from record.") st') /\
  exists lines,
    get_headers env0 both_shapes st_fresh =
      Ret (Py.join WARC_LINE_SEP ("GET / HTTP/1.0" :: lines)) st_fresh.
Proof.
  assert (Hmsg : forall o u, Obj.url o = Some "http://quotes.toscrape.com/" ->
            Obj.url o = Some u ->
            urlparse_path env0 u <> inl "Unable to form http_line from record.").
  { intros o u Ho Hu. rewrite Ho in Hu. injection Hu as <-. vm_compute. discriminate. }
  split; [exact (fun u => Hmsg url_and_headers u eq_refl)|]. split; [|split].
  - destruct (get_headers_shape_error env0 url_and_headers st_fresh) as [H _].
    apply (H (fun u => Hmsg url_and_headers u eq_refl)).
    split; [eexists; reflexivity|]. split; reflexivity.
  - destruct (get_headers_shape_error env0 both_shapes st_fresh) as [H _].
    intros Hraise.
    apply (H (fun u => Hmsg both_shapes u eq_refl)) in Hraise as (_ & Hm & _).
    discriminate Hm.
  - destruct (get_headers_shape_error env0 both_shapes st_fresh) as [_ H].
    destruct (H [(PBytes "Accept", PBytes "*/*")] "GET" (PInt 200)
                eq_refl eq_refl eq_refl) as (_ & lines & _ & Hrun).
    exists lines. exact Hrun.
Defined.

(** A record with headers, a method and a status makes [get_headers]
    raise when it has no URL ([AttributeError]) and when its URL is one
    that [urlparse] rejects ([ValueError]). *)
Lemma get_headers_both_shapes_raises :
  (is_Some (Obj.headers both_shapes_no_url) /\
   is_Some (Obj.method both_shapes_no_url) /\
   is_Some (Obj.status both_shapes_no_url) /\
   get_headers env0 both_shapes_no_url st_fresh =
     Raise (AttributeError "url") st_fresh) /\
  (is_Some (Obj.headers both_shapes_bad_url) /\
   is_Some (Obj.method both_shapes_bad_url) /\
   is_Some (Obj.status both_shapes_bad_url) /\
   get_headers env0 both_shapes_bad_url st_fresh =
     Raise (ValueError "Invalid IPv6 URL") st_fresh).
Proof.
  split; (split; [eexists; reflexivity|]; split; [eexists; reflexivity|];
          split; [eexists; reflexivity|]; reflexivity).
Qed.

Example get_headers_both_shapes :
  get_headers env0 both_shapes st_fresh =
    Ret ("GET / HTTP/1.0" +:+ WARC_LINE_SEP +:+ "b'Accept': b'*/*'") st_fresh.
Proof. reflexivity. Qed.

Example get_headers_headers_only :
  get_headers env0 headers_only st_fresh =
    Raise (ValueError "Unable to form http_line from record.") st_fresh.
Proof. reflexivity. Qed.

(** ** Validation in write *)

(** C6: an exchange that fails one of the checks of [write] (response
    without status, response without body, request without method,
    request without meta, or meta without a stamped [WARC-Date]) makes
    [write] raise [ValueError] in the very state it was called in: no file
    is created or changed, no record is written, and the writer is as it
    was. *)
Theorem write_rejects_before_writing (E : Env) (fuel : nat)
    (response request : Obj.t) (st : St) :
  Obj.status response = None \/
  Obj.body response = None \/
  Obj.method request = None \/
  Obj.meta request = None \/
  (exists m, Obj.meta request = Some m /\
             truthy (default PNone (m !! "WARC-Date")) = false) ->
  exists msg, write E fuel response request st = Raise (ValueError msg) st.
Proof.
  intros H. unfold write.
  destruct (Obj.status response) as [s|]; cbn; [|eauto].
  destruct (Obj.body response) as [b|]; cbn; [|eauto].
  destruct (Obj.method request) as [m|]; cbn; [|eauto].
  destruct (Obj.meta request) as [mt|]; cbn; [|eauto].
  destruct H as [H|[H|[H|[H|(m' & [= <-] & H)]]]]; try discriminate.
  unfold bind, ret. rewrite H. cbn. eauto.
Qed.

Lemma write_rejects_before_writing_witness :
  Obj.status response_no_status = None /\
  exists msg, write env0 2 response_no_status request0 st_fresh
              = Raise (ValueError msg) st_fresh.
Proof.
  split; [reflexivity|].
  apply (write_rejects_before_writing env0 2 response_no_status request0 st_fresh).
  left. reflexivity.
Defined.

(** ** Segment creation *)

(** C7: [__init__] sets the largest serial to 99999, the largest number
    of five digits.  When the serial the next segment would get is larger,
    [warcfile] raises its error about the exhausted counter in the state
    it was called in; and a [bump_serial] that has decided to rotate
    raises that error with the counter, the current file name, the files
    and the log of records as they were: the serial does not wrap and no
    new path is produced. *)
Theorem serial_exhausted (E : Env) (st : St) :
  (max_serial (self st) < warc_count (self st))%Z ->
  (exists w, init = inr w /\ max_serial w = 99999%Z) /\
  warcfile E st =
    Raise (ValueError ("warc_count: " +:+ Py.str_int (warc_count (self st))
                       +:+ " exceeds max_serial: " +:+ Py.str_int (max_serial (self st)))) st /\
  (forall fuel n,
     decides_rotation st n = true ->
     exists st',
       bump_serial E fuel n st =
         Raise (ValueError ("warc_count: " +:+ Py.str_int (warc_count (self st))
                            +:+ " exceeds max_serial: " +:+ Py.str_int (max_serial (self st)))) st' /\
       world st' = world st /\
       warc_fname (self st') = warc_fname (self st) /\
       warc_count (self st') = warc_count (self st)).
Proof.
  intros Hov. split; [eexists; split; reflexivity|].
  assert (Hwf : forall s, (max_serial (self s) < warc_count (self s))%Z ->
    warcfile E s = Raise (ValueError ("warc_count: " +:+ Py.str_int (warc_count (self s))
                       +:+ " exceeds max_serial: " +:+ Py.str_int (max_serial (self s)))) s).
  { intros s Hs. rewrite warcfile_cases.
    destruct (_ <? _)%Z eqn:Hlt; [reflexivity|]. apply Z.ltb_ge in Hlt. lia. }
  split; [by apply Hwf|].
  intros fuel n Hd. exists (refreshed st).
  destruct (refreshed_fields st) as (Hfn & Hcnt & Hmax & _).
  unfold bump_serial. rewrite bump_serial_with_cases, Hd.
  unfold bind at 1. rewrite Hwf; [|by rewrite Hcnt, Hmax].
  rewrite Hcnt, Hmax, refreshed_world. done.
Qed.

Lemma serial_exhausted_witness :
  (max_serial (self st_exhausted) < warc_count (self st_exhausted))%Z /\
  exists st',
    bump_serial env0 2 150 st_exhausted =
      Raise (ValueError "warc_count: 100000 exceeds max_serial: 99999") st' /\
    world st' = world st_exhausted /\
    warc_fname (self st') = None /\
    warc_count (self st') = 100000%Z.
Proof.
  assert (H : (max_serial (self st_exhausted) < warc_count (self st_exhausted))%Z)
    by (cbn; lia).
  split; [exact H|].
  destruct (serial_exhausted env0 st_exhausted H) as (_ & _ & Hb).
  exact (Hb 2%nat 150%Z eq_refl).
Defined.

Example last_serial_is_assigned :
  warcfile env0 {| self := writer_with None 99999; world := world st_fresh |} =
    Ret "rec-20240101000000-99999-crawler01.warc.gz"
        (ticked {| self := writer_with None 99999; world := world st_fresh |}).
Proof. reflexivity. Qed.

(** C8: when the serial and the destination are in order and a file lies
    at the path computed for the new segment, [warcfile] raises its error
    about the existing file, having read the clock and changed nothing
    else: the files, the log of records and the writer are as they were.
    A [bump_serial] that has decided to rotate ends in the same error with
    the files and the log untouched and the writer as it stood when the
    rotation began: name, counter, limit and configuration as before the
    call, and the size as the decision has just read it from the disk. *)
Theorem collision_writes_nothing (E : Env) (st : St) :
  (warc_count (self st) <= max_serial (self st))%Z ->
  dest_ok st = true ->
  is_Some (fs (world st) !! segment_path E (self st) (tick (world st))) ->
  (exists st',
     warcfile E st =
       Raise (IOError ("WARC file exists: "
                       +:+ segment_path E (self st) (tick (world st)))) st' /\
     self st' = self st /\
     fs (world st') = fs (world st) /\
     trace (world st') = trace (world st)) /\
  (forall fuel n,
     decides_rotation st n = true ->
     exists st',
       bump_serial E fuel n st =
         Raise (IOError ("WARC file exists: "
                         +:+ segment_path E (self st) (tick (world st)))) st' /\
       fs (world st') = fs (world st) /\
       trace (world st') = trace (world st) /\
       self st' = self (refreshed st) /\
       self st' = set_warc_size (warc_size (self st')) (self st)).
Proof.
  intros Hle Hdo Hex.
  assert (Hwf : forall s,
    self s = set_warc_size (warc_size (self s)) (self st) -> world s = world st ->
    warcfile E s = Raise (IOError ("WARC file exists: "
                       +:+ segment_path E (self st) (tick (world st)))) (ticked s)).
  { intros s Hs Hw. rewrite warcfile_cases.
    assert (dest_ok s = dest_ok st) as -> by (unfold dest_ok; rewrite Hw, Hs; done).
    assert (segment_path E (self s) (tick (world s))
            = segment_path E (self st) (tick (world st))) as ->
      by (unfold segment_path, segment_name; rewrite Hw, Hs; done).
    rewrite Hs, Hw, Hdo. cbn [max_serial warc_count set_warc_size negb].
    destruct (_ <? _)%Z eqn:Hlt; [apply Z.ltb_lt in Hlt; lia|].
    by rewrite bool_decide_eq_true_2. }
  split.
  - exists (ticked st). split; [|done]. apply Hwf; [by destruct (self st)|done].
  - intros fuel n Hd. exists (ticked (refreshed st)).
    unfold bump_serial. rewrite bump_serial_with_cases, Hd.
    unfold bind at 1. rewrite Hwf; [|apply refreshed_self|apply refreshed_world].
    cbn. rewrite refreshed_world. repeat (split; [done|]). apply refreshed_self.
Qed.

Lemma collision_writes_nothing_witness :
  (warc_count (self st_collision) <= max_serial (self st_collision))%Z /\
  dest_ok st_collision = true /\
  is_Some (fs (world st_collision) !! segment1) /\
  exists st',
    bump_serial env0 2 150 st_collision =
      Raise (IOError ("WARC file exists: " +:+ segment1)) st' /\
    fs (world st') = fs (world st_collision) /\
    trace (world st') = [] /\
    self st' = set_warc_size 9990 (self st_collision).
Proof.
  assert (H1 : (warc_count (self st_collision) <= max_serial (self st_collision))%Z)
    by (cbn; lia).
  assert (H2 : dest_ok st_collision = true) by reflexivity.
  assert (H3 : is_Some (fs (world st_collision)
                 !! segment_path env0 (self st_collision) (tick (world st_collision))))
    by (eexists; reflexivity).
  repeat (split; [done|]).
  destruct (collision_writes_nothing env0 st_collision H1 H2 H3) as [_ Hb].
  destruct (Hb 2%nat 150%Z eq_refl) as (st' & Hr & Hfs & Htr & Hself & _).
  exists st'. done.
Defined.

(** ** Where the records go *)

Lemma appended_fs (E : Env) (p : string) (r : WarcRecord) (st : St) :
  fs (world (appended E p r st)) =
  <[p := File (frames_at p (fs (world st)) ++ [frame_at E (tick (world st)) r])]>
    (fs (world st)).
Proof. reflexivity. Qed.

Lemma appended_self (E : Env) (p : string) (r : WarcRecord) (st : St) :
  self (appended E p r st) = self st.
Proof. reflexivity. Qed.

Lemma rotated_fs (E : Env) (st : St) :
  fs (world st) !! segment_path E (self st) (tick (world st)) = None ->
  fs (world (rotated E st)) =
  <[segment_path E (self st) (tick (world st)) :=
      File [frame_at E (S (S (S (tick (world st)))))
              (warcinfo_record E (config (self st))
                 (segment_path E (self st) (tick (world st))) (tick (world st)))]]>
    (fs (world st)).
Proof.
  intros Hnone. unfold rotated. cbn [world]. unfold append_frame. cbn [fs next_tick].
  by rewrite (frames_at_None _ _ Hnone).
Qed.

Lemma rotated_count (E : Env) (st : St) :
  warc_count (self (rotated E st)) = (warc_count (self st) + 1)%Z.
Proof. reflexivity. Qed.

Lemma decides_rotation_at (st : St) (n : Z) (p : string) (nd : Node) :
  warc_fname (self st) = Some p ->
  fs (world st) !! p = Some nd ->
  decides_rotation st n = (max_warc_size (config (self st)) <=? node_size nd + n)%Z.
Proof. intros Hf Hp. unfold decides_rotation. by rewrite Hf, Hp. Qed.

(** C3: with a current segment on disk holding [S] bytes, a write whose
    content is estimated at [est] bytes rotates exactly when [S + est]
    reaches the maximum [M].  If [S + est >= M] and the write returns, the
    writer is on a new path at which nothing existed, the serial counter
    has advanced, the new file holds the segment-info record first and
    the written record second, and the old segment is untouched.  If
    [S + est < M], [bump_serial] returns without creating anything, and a
    returning write leaves the writer on the current segment, whose file
    has gained exactly the written record; no other path changes and no
    segment-info record is written. *)
Theorem rotation_threshold (E : Env) (st : St) (p : string) (nd : Node)
    (fuel : nat) (hs : list (string * PyVal)) (ct c : string) :
  warc_fname (self st) = Some p ->
  fs (world st) !! p = Some nd ->
  (2 <= fuel)%nat ->
  ((max_warc_size (config (self st)) <= node_size nd + getsizeof E c)%Z ->
   decides_rotation st (getsizeof E c) = true /\
   forall st',
     write_record E fuel hs ct c st = Ret tt st' ->
     exists f info,
       f = segment_path E (self st) (tick (world st)) /\
       f <> p /\
       fs (world st) !! f = None /\
       warc_fname (self st') = Some f /\
       warc_count (self st') = (warc_count (self st) + 1)%Z /\
       is_warcinfo (frame_record info) = true /\
       fs (world st') !! f =
         Some (File [info; frame_at E (S (S (S (S (tick (world st)))))) (make_record hs c)]) /\
       fs (world st') !! p = Some nd) /\
  ((node_size nd + getsizeof E c < max_warc_size (config (self st)))%Z ->
   decides_rotation st (getsizeof E c) = false /\
   bump_serial E fuel (getsizeof E c) st = Ret tt (refreshed st) /\
   forall st',
     write_record E fuel hs ct c st = Ret tt st' ->
     warc_fname (self st') = Some p /\
     warc_count (self st') = warc_count (self st) /\
     exists frs,
       nd = File frs /\
       fs (world st') =
         <[p := File (frs ++ [frame_at E (tick (world st)) (make_record hs c)])]>
           (fs (world st)) /\
       trace (world st') = (trace (world st) ++ [(p, make_record hs c)])%list).
Proof.
  intros Hf Hp Hfuel.
  pose proof (decides_rotation_at st (getsizeof E c) p nd Hf Hp) as Hdec.
  split.
  - intros Hge. assert (Hd : decides_rotation st (getsizeof E c) = true).
    { rewrite Hdec. by apply Z.leb_le. }
    split; [done|]. intros st' Hw.
    apply (write_record_Ret _ _ _ _ _ _ _ Hfuel) in Hw
      as [(Hd' & _)|(_ & _ & _ & Hnone & ->)]; [congruence|].
    set (f := segment_path E (self st) (tick (world st))) in *.
    assert (Hne : f <> p) by (intros ->; congruence).
    eexists f, _. split; [done|]. split; [done|]. split; [done|].
    rewrite appended_self, rotated_fname, rotated_count, appended_fs.
    split; [done|]. split; [done|].
    rewrite (rotated_fs E st Hnone). fold f.
    rewrite frames_at_insert, lookup_insert_eq, lookup_insert_ne, lookup_insert_ne by done.
    split; [|split; [reflexivity|done]].
    apply warcinfo_record_kind.
  - intros Hlt. assert (Hd : decides_rotation st (getsizeof E c) = false).
    { rewrite Hdec. apply Z.leb_gt. lia. }
    split; [done|]. split.
    { unfold bump_serial. by rewrite bump_serial_with_cases, Hd. }
    intros st' Hw.
    apply (write_record_Ret _ _ _ _ _ _ _ Hfuel) in Hw
      as [(_ & p' & Hp' & Hnd & ->)|(Hd' & _)]; [|congruence].
    assert (p' = p) as -> by congruence.
    destruct (refreshed_fields st) as (Hfn & Hcnt & _).
    rewrite appended_self, Hfn, Hcnt, appended_fs, appended_trace, !refreshed_world.
    split; [done|]. split; [done|].
    destruct nd as [sz|frs]; [by destruct (Hnd sz)|].
    exists frs. unfold frames_at. by rewrite Hp.
Qed.

Lemma rotation_threshold_witness :
  (exists st',
     write_record env0 2 (response_warc_headers "http://quotes.toscrape.com/"
                            (PStr "2024-01-01T00:00:00Z") (record_id_at env0 0))
       "application/http;msgtype=response" "HTTP/1.0 200" (st_segment 9990) = Ret tt st' /\
     warc_fname (self st') = Some segment1 /\
     exists info rec,
       fs (world st') !! segment1 = Some (File [info; rec]) /\
       is_warcinfo (frame_record info) = true) /\
  (exists st',
     write_record env0 2 (response_warc_headers "http://quotes.toscrape.com/"
                            (PStr "2024-01-01T00:00:00Z") (record_id_at env0 0))
       "application/http;msgtype=response" "HTTP/1.0 200" (st_segment 900) = Ret tt st' /\
     warc_fname (self st') = Some segment0 /\
     exists rec, fs (world st') !! segment0 = Some (File [earlier_frame 900; rec])).
Proof.
  split.
  - destruct (rotation_threshold env0 (st_segment 9990) segment0 (File [earlier_frame 9990])
                2 (response_warc_headers "http://quotes.toscrape.com/"
                     (PStr "2024-01-01T00:00:00Z") (record_id_at env0 0))
                "application/http;msgtype=response" "HTTP/1.0 200"
                eq_refl eq_refl (le_n 2)) as [Hrot _].
    destruct Hrot as [_ Hrot]; [cbn; lia|].
    eexists. split; [vm_compute; reflexivity|].
    edestruct Hrot as (f & info & -> & _ & _ & Hfn & _ & Hinfo & Hfile & _);
      [vm_compute; reflexivity|].
    split; [exact Hfn|]. eexists info, _. split; [exact Hfile|exact Hinfo].
  - destruct (rotation_threshold env0 (st_segment 900) segment0 (File [earlier_frame 900])
                2 (response_warc_headers "http://quotes.toscrape.com/"
                     (PStr "2024-01-01T00:00:00Z") (record_id_at env0 0))
                "application/http;msgtype=response" "HTTP/1.0 200"
                eq_refl eq_refl (le_n 2)) as [_ Hkeep].
    destruct Hkeep as (_ & _ & Hkeep); [cbn; lia|].
    eexists. split; [vm_compute; reflexivity|].
    edestruct Hkeep as (Hfn & _ & frs & [= <-] & Hfs & _); [vm_compute; reflexivity|].
    split; [exact Hfn|]. eexists. rewrite Hfs. apply lookup_insert_eq.
Defined.

Lemma response_record_kind (u : string) (d : PyVal) (rid c : string) :
  kind (make_record (response_warc_headers u d rid) c) = Some (PStr "response").
Proof. reflexivity. Qed.

Lemma request_record_kind (u : string) (d : PyVal) (rid cto c : string) :
  kind (make_record (request_warc_headers u d rid cto) c) = Some (PStr "request").
Proof. reflexivity. Qed.

Lemma kind_not_warcinfo (r : WarcRecord) (k : string) :
  kind r = Some (PStr k) -> k <> "warcinfo" -> is_warcinfo r = false.
Proof.
  intros Hk Hne. unfold is_warcinfo. rewrite Hk.
  apply bool_decide_eq_false_2. congruence.
Qed.



(** ** The pair of records of an exchange *)

Lemma exchange_events_app (l1 l2 : list (string * WarcRecord)) :
  exchange_events (l1 ++ l2) = (exchange_events l1 ++ exchange_events l2)%list.
Proof. unfold exchange_events. apply filter_app. Qed.

Lemma exchange_events_keep (p : string) (r : WarcRecord) :
  is_warcinfo r = false -> exchange_events [(p, r)] = [(p, r)].
Proof.
  intros H. unfold exchange_events. rewrite filter_cons_True by done. reflexivity.
Qed.

(** The exchange records a returning [write] has added to the log are
    two: the response record and then the request record, built from the
    two URLs, the date stamped on the request, the identifier drawn first
    and a second identifier. *)
Lemma write_exchange_events (E : Env) (fuel : nat) (response request : Obj.t)
    (st st' : St) :
  (2 <= fuel)%nat ->
  write E fuel response request st = Ret tt st' ->
  exists u1 u2 m d c1 c2 p1 p2 t2,
    Obj.meta request = Some m /\
    m !! "WARC-Date" = Some d /\
    exchange_events (new_events st st') =
      [ (p1, make_record
               (response_warc_headers u1 d (record_id_at E (tick (world st)))) c1);
        (p2, make_record
               (request_warc_headers u2 d (record_id_at E t2)
                  (record_id_at E (tick (world st)))) c2) ].
Proof.
  intros Hfuel Hw.
  apply write_Ret in Hw as (u1 & m & d & c1 & st1 & _ & Hm & Hd & _ & Hw1 & Hw2).
  apply write_request_Ret in Hw2 as (u2 & m2 & d2 & c2 & _ & Hm2 & Hd2 & Hw2).
  assert (m2 = m) as -> by congruence. assert (d2 = d) as -> by congruence.
  apply (write_record_trace _ _ _ _ _ _ _ Hfuel) in Hw1
    as (p1 & pre1 & _ & Ht1 & Hpre1 & _).
  apply (write_record_trace _ _ _ _ _ _ _ Hfuel) in Hw2
    as (p2 & pre2 & _ & Ht2 & Hpre2 & _).
  cbn [ticked world next_tick trace] in Ht1, Ht2.
  exists u1, u2, m, d, c1, c2, p1, p2, (tick (world st1)).
  split; [done|]. split; [done|].
  unfold new_events. rewrite Ht2, Ht1, <- !app_assoc, drop_app_length.
  rewrite !exchange_events_app, Hpre1, Hpre2.
  rewrite !exchange_events_keep; [reflexivity| |].
  - apply (kind_not_warcinfo _ "request"); [apply request_record_kind|done].
  - apply (kind_not_warcinfo _ "response"); [apply response_record_kind|done].
Qed.

(** The header lists of the two exchange records of a returning [write]
    hold one and the same [WARC-Date], the value found under [WARC-Date]
    in the request's meta.  [write_record] hands each list to
    [create_warc_record] as [http_headers]. *)
Lemma pair_http_block_shares_date (E : Env) (fuel : nat) (response request : Obj.t)
    (st st' : St) :
  (2 <= fuel)%nat ->
  write E fuel response request st = Ret tt st' ->
  exists m d p1 rsp p2 req,
    Obj.meta request = Some m /\
    m !! "WARC-Date" = Some d /\
    exchange_events (new_events st st') = [(p1, rsp); (p2, req)] /\
    kind rsp = Some (PStr "response") /\
    kind req = Some (PStr "request") /\
    header_of rsp "WARC-Date" = Some d /\
    header_of req "WARC-Date" = Some d.
Proof.
  intros Hfuel Hw.
  destruct (write_exchange_events E fuel response request st st' Hfuel Hw)
    as (u1 & u2 & m & d & c1 & c2 & p1 & p2 & t2 & Hm & Hd & Hev).
  exists m, d, p1. eexists. exists p2. eexists.
  split; [exact Hm|]. split; [exact Hd|]. split; [exact Hev|].
  repeat split; reflexivity.
Qed.

(** In the header list of the request record the entry
    [WARC-Concurrent-To] is the [WARC-Record-ID] entry of the header list
    of the response record logged just before it. *)
Lemma request_http_block_links_response (E : Env) (fuel : nat)
    (response request : Obj.t) (st st' : St) :
  (2 <= fuel)%nat ->
  write E fuel response request st = Ret tt st' ->
  exists rid p1 rsp p2 req,
    exchange_events (new_events st st') = [(p1, rsp); (p2, req)] /\
    kind rsp = Some (PStr "response") /\
    kind req = Some (PStr "request") /\
    header_of rsp "WARC-Record-ID" = Some (PStr rid) /\
    header_of req "WARC-Concurrent-To" = Some (PStr rid).
Proof.
  intros Hfuel Hw.
  destruct (write_exchange_events E fuel response request st st' Hfuel Hw)
    as (u1 & u2 & m & d & c1 & c2 & p1 & p2 & t2 & _ & _ & Hev).
  exists (record_id_at E (tick (world st))), p1. eexists. exists p2. eexists.
  split; [exact Hev|]. repeat split; reflexivity.
Qed.

(** ** WARC headers the records are not given *)

(** No record [write_record] logs, the segment-info record of a new
    segment included, is created with WARC headers of the caller:
    [create_warc_record] is called without [warc_headers] and without
    [warc_headers_dict]. *)
Lemma written_records_without_warc_headers (E : Env) (fuel : nat)
    (hs : list (string * PyVal)) (ct c : string) (st st' : St) :
  (2 <= fuel)%nat ->
  write_record E fuel hs ct c st = Ret tt st' ->
  Forall (fun ev => warc_headers ev.2 = None /\ warc_headers_dict ev.2 = None)
         (new_events st st').
Proof.
  intros Hfuel Hw.
  apply (write_record_Ret _ _ _ _ _ _ _ Hfuel) in Hw
    as [(_ & p & _ & _ & ->)|(_ & _ & _ & _ & ->)]; unfold new_events.
  - rewrite appended_trace, refreshed_world, drop_app_length.
    repeat constructor.
  - rewrite appended_trace, rotated_trace, <- app_assoc, drop_app_length.
    repeat constructor.
Qed.

(** The same of the two exchange records of a returning [write]; the
    header list of each is the [headers] of its [http_headers], under the
    status line [200 OK]. *)
Lemma exchange_records_without_warc_headers (E : Env) (fuel : nat)
    (response request : Obj.t) (st st' : St) :
  (2 <= fuel)%nat ->
  write E fuel response request st = Ret tt st' ->
  Forall (fun ev => warc_headers ev.2 = None /\ warc_headers_dict ev.2 = None /\
                    statusline (http_headers ev.2) = "200 OK" /\
                    uri ev.2 = "https://www.test.nl")
         (exchange_events (new_events st st')).
Proof.
  intros Hfuel Hw.
  destruct (write_exchange_events E fuel response request st st' Hfuel Hw)
    as (u1 & u2 & m & d & c1 & c2 & p1 & p2 & t2 & _ & _ & ->).
  repeat constructor.
Qed.

(** C4, at an input where it fails: the first exchange of a new writer,
    the request stamped with the date [2024-01-01T00:00:00Z].  The stamped
    date reaches [create_warc_record] only inside the list passed as
    [http_headers], for the response record and for the request record
    alike.  Neither record is created with a WARC header of the caller
    ([warc_headers] and [warc_headers_dict] are not passed), so no
    [WARC-Date] is placed in the WARC headers of either record: that
    header is left to warcio, which dates each record when it creates
    it. *)
Theorem stamped_date_not_a_warc_header :
  exists st' info rsp req,
    write env0 2 response0 request0 st_fresh = Ret tt st' /\
    trace (world st') = [(segment0, info); (segment0, rsp); (segment0, req)] /\
    Obj.meta request0 = Some stamp /\
    stamp !! "WARC-Date" = Some (PStr "2024-01-01T00:00:00Z") /\
    warc_headers rsp = None /\ warc_headers_dict rsp = None /\
    warc_headers req = None /\ warc_headers_dict req = None /\
    http_headers rsp =
      {| statusline := "200 OK";
         sh_headers := [ ("WARC-Type", PStr "response");
                         ("WARC-Target-URI", PStr "http://quotes.toscrape.com/");
                         ("WARC-Date", PStr "2024-01-01T00:00:00Z");
                         ("WARC-Record-ID", PStr "<urn:uuid:0>") ];
         protocol := "HTTPS" |} /\
    http_headers req =
      {| statusline := "200 OK";
         sh_headers := [ ("WARC-Type", PStr "request");
                         ("WARC-Target-URI", PStr "http://quotes.toscrape.com/");
                         ("WARC-Date", PStr "2024-01-01T00:00:00Z");
                         ("WARC-Record-ID", PStr "<urn:uuid:6>");
                         ("WARC-Concurrent-To", PStr "<urn:uuid:0>") ];
         protocol := "HTTPS" |}.
Proof.
  eexists _, _, _, _. split; [vm_compute; reflexivity|].
  split; [vm_compute; reflexivity|].
  repeat split; vm_compute; reflexivity.
Qed.

(** C5, at an input where it fails: an exchange appended to a segment
    that holds 900 bytes.  The identifier [write] draws for the response
    and passes on as [concurrent_to] reaches [create_warc_record] only
    inside the lists passed as [http_headers].  The request record is
    created without any WARC header of the caller, so it has no
    [WARC-Concurrent-To] among its WARC headers; the response record is
    created without one too, so its [WARC-Record-ID] is not the identifier
    drawn by [write] but one that warcio generates for it. *)
Theorem concurrent_to_not_a_warc_header :
  exists st' rsp req,
    write env0 2 response0 request0 (st_segment 900) = Ret tt st' /\
    trace (world st') = [(segment0, rsp); (segment0, req)] /\
    warc_headers rsp = None /\ warc_headers_dict rsp = None /\
    warc_headers req = None /\ warc_headers_dict req = None /\
    uri rsp = "https://www.test.nl" /\ uri req = "https://www.test.nl" /\
    record_type req = "response" /\
    http_headers rsp =
      {| statusline := "200 OK";
         sh_headers := [ ("WARC-Type", PStr "response");
                         ("WARC-Target-URI", PStr "http://quotes.toscrape.com/");
                         ("WARC-Date", PStr "2024-01-01T00:00:00Z");
                         ("WARC-Record-ID", PStr "<urn:uuid:0>") ];
         protocol := "HTTPS" |} /\
    http_headers req =
      {| statusline := "200 OK";
         sh_headers := [ ("WARC-Type", PStr "request");
                         ("WARC-Target-URI", PStr "http://quotes.toscrape.com/");
                         ("WARC-Date", PStr "2024-01-01T00:00:00Z");
                         ("WARC-Record-ID", PStr "<urn:uuid:2>");
                         ("WARC-Concurrent-To", PStr "<urn:uuid:0>") ];
         protocol := "HTTPS" |}.
Proof.
  eexists _, _, _. split; [vm_compute; reflexivity|].
  split; [vm_compute; reflexivity|].
  repeat split; vm_compute; reflexivity.
Qed.

(** ** Two places where the code departs from its documentation *)

(** The rotation decision is taken in every [write_record], so twice in
    an exchange: once before the response record and once more before
    the request record, after the response has grown the file. *)
Lemma write_decides_twice (E : Env) (fuel : nat) (response request : Obj.t)
    (st st' : St) :
  (2 <= fuel)%nat ->
  write E fuel response request st = Ret tt st' ->
  exists hs1 c1 hs2 c2 st1,
    write_record E fuel hs1 "application/http;msgtype=response" c1 (ticked st) = Ret tt st1 /\
    write_record E fuel hs2 "application/http;msgtype=request" c2 (ticked st1) = Ret tt st' /\
    kind (make_record hs1 c1) = Some (PStr "response") /\
    kind (make_record hs2 c2) = Some (PStr "request").
Proof.
  intros Hfuel Hw.
  apply write_Ret in Hw as (u & m & d & c & st1 & _ & _ & _ & _ & Hw1 & Hw2).
  apply write_request_Ret in Hw2 as (u2 & m2 & d2 & c2 & _ & _ & _ & Hw2).
  eexists _, _, _, _, st1. split; [exact Hw1|]. split; [exact Hw2|].
  split; reflexivity.
Qed.

(** C1, at an input where it fails: the segment holds 9650 bytes of a
    maximum of 10000; the response record (estimate 101) is appended to
    it and takes 300 bytes on disk; the second decision, for the request
    record (estimate 70), finds 9950 + 70 >= 10000 and rotates.  The
    response record is in the first segment and the request record that
    points to it is in the second. *)
Theorem pair_split_by_rotation :
  exists st' rsp req info,
    write env0 2 response0 request0 (st_segment 9650) = Ret tt st' /\
    trace (world st') = [(segment0, rsp); (segment1, info); (segment1, req)] /\
    kind rsp = Some (PStr "response") /\
    kind info = Some (PStr "warcinfo") /\
    kind req = Some (PStr "request") /\
    header_of req "WARC-Concurrent-To" = header_of rsp "WARC-Record-ID" /\
    segment0 <> segment1 /\
    fs (world st') !! segment0
      = Some (File [earlier_frame 9650; frame_at env0 1 rsp]) /\
    fs (world st') !! segment1
      = Some (File [frame_at env0 6 info; frame_at env0 7 req]).
Proof.
  eexists _, _, _, _. split; [vm_compute; reflexivity|].
  split; [vm_compute; reflexivity|].
  repeat split; try (vm_compute; reflexivity).
  discriminate.
Qed.

(** Every record [write_record] logs, the segment-info record of a new
    segment included, is created with the record type [response]. *)
Lemma written_records_typed_response (E : Env) (fuel : nat)
    (hs : list (string * PyVal)) (ct c : string) (st st' : St) :
  (2 <= fuel)%nat ->
  write_record E fuel hs ct c st = Ret tt st' ->
  Forall (fun ev => record_type ev.2 = "response") (new_events st st').
Proof.
  intros Hfuel Hw.
  apply (write_record_Ret _ _ _ _ _ _ _ Hfuel) in Hw
    as [(_ & p & _ & _ & ->)|(_ & _ & _ & _ & ->)]; unfold new_events.
  - rewrite appended_trace, refreshed_world, drop_app_length.
    repeat constructor.
  - rewrite appended_trace, rotated_trace, <- app_assoc, drop_app_length.
    repeat constructor.
Qed.

(** C2, at an input where it fails: the first exchange of a new writer
    logs a segment-info record, a response record and a request record,
    and all three are created with the record type [response]; the
    [warcinfo] and [request] of their builders are left among the HTTP
    headers. *)
Theorem all_records_typed_response :
  exists st' info rsp req,
    write env0 2 response0 request0 st_fresh = Ret tt st' /\
    trace (world st') = [(segment0, info); (segment0, rsp); (segment0, req)] /\
    kind info = Some (PStr "warcinfo") /\
    kind rsp = Some (PStr "response") /\
    kind req = Some (PStr "request") /\
    record_type info = "response" /\
    record_type rsp = "response" /\
    record_type req = "response" /\
    uri info = "https://www.test.nl".
Proof.
  eexists _, _, _, _. split; [vm_compute; reflexivity|].
  split; [vm_compute; reflexivity|].
  repeat split; vm_compute; reflexivity.
Qed.

(** ** The middleware *)

(** [process_request] stamps the request: a request that has a meta
    mapping comes back with the date of the clock under [WARC-Date], and
    only the clock has moved. *)
Lemma process_request_stamps (E : Env) (request : Obj.t) (m : gmap string PyVal) (st : St) :
  Obj.meta request = Some m ->
  exists request',
    process_request E request st = Ret request' (ticked st) /\
    Obj.meta request' = Some (<["WARC-Date" := PStr (warc_date E (tick (world st)))]> m) /\
    Obj.url request' = Obj.url request /\
    Obj.method request' = Obj.method request.
Proof.
  intros Hm. unfold process_request. eexists. split.
  - unfold bind at 1. rewrite ask_eq. unfold bind at 1. rewrite Hm. reflexivity.
  - done.
Qed.

(** [process_response] is [write] and hands the response back. *)
Lemma process_response_writes (E : Env) (fuel : nat) (request response : Obj.t)
    (st st' : St) :
  write E fuel response request st = Ret tt st' ->
  process_response E fuel request response st = Ret response st'.
Proof. intros H. unfold process_response, bind. by rewrite H. Qed.

(** ** Fuel *)

Lemma bind_total {A B} (m : M A) (k : A -> M B) (st : St) :
  m st <> OutOfFuel ->
  (forall a st1, m st = Ret a st1 -> k a st1 <> OutOfFuel) ->
  bind m k st <> OutOfFuel.
Proof.
  intros Hm Hk. unfold bind. destruct (m st) as [a st1|e st1|]; [|done|done].
  by apply Hk.
Qed.

Lemma reads_only_total {A} (m : M A) (st : St) : reads_only m -> m st <> OutOfFuel.
Proof. intros H Hm. specialize (H st). by rewrite Hm in H. Qed.

Lemma write_request_total (E : Env) (fuel : nat) (request : Obj.t) (cto : string) (st : St) :
  (2 <= fuel)%nat ->
  write_request E fuel request cto st <> OutOfFuel.
Proof.
  intros Hfuel. unfold write_request.
  apply bind_total; [apply reads_only_total, reads_only_lift|]. intros u s1 _.
  apply bind_total; [apply reads_only_total, reads_only_lift|]. intros m s2 _.
  apply bind_total.
  { destruct (m !! "WARC-Date"); done. }
  intros d s3 _. apply bind_total; [done|]. intros rid s4 _.
  apply bind_total; [apply reads_only_total, reads_only_get_headers|]. intros hs s5 _.
  apply bind_total; [apply reads_only_total, reads_only_lift|]. intros b s6 _.
  by apply write_record_total.
Qed.

(** With two units of fuel [write] always returns or raises. *)
Lemma write_total (E : Env) (fuel : nat) (response request : Obj.t) (st : St) :
  (2 <= fuel)%nat ->
  write E fuel response request st <> OutOfFuel.
Proof.
  intros Hfuel. unfold write.
  destruct (negb _); [done|]. destruct (negb _); [done|].
  destruct (negb _); [done|]. destruct (negb _); [done|].
  apply bind_total; [apply reads_only_total, reads_only_lift|]. intros m s1 _.
  destruct (negb _); [done|].
  apply bind_total; [done|]. intros rid s2 _.
  apply bind_total; [apply reads_only_total, reads_only_lift|]. intros u s3 _.
  apply bind_total.
  { destruct (m !! "WARC-Date"); done. }
  intros d s4 _.
  apply bind_total; [apply reads_only_total, reads_only_get_headers|]. intros hs s5 _.
  apply bind_total; [apply reads_only_total, reads_only_lift|]. intros b s6 _.
  apply bind_total; [by apply write_record_total|]. intros [] s7 _.
  by apply write_request_total.
Qed.

(** ** How the methods end *)

Lemma bind_Raise_inv {A B} (m : M A) (k : A -> M B) (st st' : St) (e : Err) :
  bind m k st = Raise e st' ->
  m st = Raise e st' \/ exists a st1, m st = Ret a st1 /\ k a st1 = Raise e st'.
Proof.
  unfold bind. destruct (m st) as [a st1|e1 st1|]; try discriminate.
  - intros H. right. by exists a, st1.
  - intros [= -> ->]. by left.
Qed.

Lemma append_record_Raise (E : Env) (hs : list (string * PyVal)) (c : string)
    (st st' : St) (e : Err) :
  append_record E hs c st = Raise e st' -> st' = st.
Proof.
  intros H. pose proof (append_record_inv E hs c st) as Hinv.
  by rewrite H in Hinv.
Qed.

(** A failing [bump_serial] had decided to rotate, and stops in one of
    three states: before the clock was read (serial exhausted), after it
    (destination missing or name taken), or with the new name already set
    (the segment-info record could not be written). *)
Lemma bump_serial_Raise (E : Env) (n : Z) (st st' : St) (e : Err) :
  bump_serial_with E (fun hs _ c => append_record E hs c) n st = Raise e st' ->
  decides_rotation st n = true /\
  (st' = refreshed st \/
   st' = ticked (refreshed st) \/
   st' = renamed (segment_path E (self st) (tick (world st))) st).
Proof.
  rewrite bump_serial_with_cases.
  destruct (decides_rotation st n) eqn:Hd; [|discriminate].
  intros H. split; [done|].
  apply bind_Raise_inv in H as [H|(f & s1 & Hwf & H)].
  - rewrite warcfile_cases in H.
    destruct (_ <? _)%Z; [injection H as _ <-; by left|].
    destruct (negb _); [injection H as _ <-; right; by left|].
    cbn in H. destruct (bool_decide _); [|discriminate].
    injection H as _ <-. right; by left.
  - apply warcfile_Ret in Hwf as (-> & -> & _).
    rewrite ?refreshed_world, ?refreshed_segment_path in *.
    apply bind_Raise_inv in H as [H|([] & s2 & Hset & H)]; [discriminate|].
    injection Hset as <-.
    apply bind_Raise_inv in H as [H|([] & s3 & Hinfo & H)]; [|discriminate].
    rewrite write_warcinfo_with_eq in H. apply append_record_Raise in H as ->.
    right; right. unfold renamed, ticked. cbn. by rewrite refreshed_world.
Qed.

Lemma write_record_Raise (E : Env) (fuel : nat) (hs : list (string * PyVal))
    (ct c : string) (st st' : St) (e : Err) :
  (2 <= fuel)%nat ->
  write_record E fuel hs ct c st = Raise e st' ->
  st' = refreshed st \/
  st' = ticked (refreshed st) \/
  st' = renamed (segment_path E (self st) (tick (world st))) st \/
  (decides_rotation st (getsizeof E c) = true /\
   fs (world st) !! segment_path E (self st) (tick (world st)) = None /\
   st' = rotated E st).
Proof.
  intros Hfuel. destruct fuel as [|[|k]]; [lia|lia|]. rewrite write_record_flat.
  intros H. apply bind_Raise_inv in H as [H|([] & s1 & Hb & H)].
  - apply bump_serial_Raise in H as (_ & [-> | [-> | ->]]); auto.
  - apply append_record_Raise in H as ->.
    pose proof (bump_serial_inv E (getsizeof E c) st) as Hinv. rewrite Hb in Hinv.
    destruct Hinv as [[_ ->]|(Hd & _ & _ & Hnone & ->)]; auto.
    right; right; right. done.
Qed.

Lemma stateless_ret {A} (a : A) : stateless (ret a).
Proof. by exists (inr a). Qed.

Lemma stateless_raise {A} (e : Err) : stateless (@raise A e).
Proof. by exists (inl e). Qed.

Lemma stateless_lift {A} (r : Err + A) : stateless (lift r).
Proof. by exists r. Qed.

Lemma stateless_bind {A B} (m : M A) (k : A -> M B) :
  stateless m -> (forall a, stateless (k a)) -> stateless (bind m k).
Proof.
  intros [[e|a] Hm] Hk.
  - exists (inl e). intros st. unfold bind. by rewrite Hm.
  - destruct (Hk a) as [r Hr]. exists r. intros st. unfold bind. rewrite Hm. apply Hr.
Qed.

Lemma stateless_for_each {A B} (l : list A) (f : A -> M B) :
  (forall x, stateless (f x)) -> stateless (for_each l f).
Proof.
  intros Hf. induction l as [|x l IH]; simpl.
  - apply stateless_ret.
  - apply stateless_bind; [apply Hf|]. intros y.
    apply stateless_bind; [apply IH|]. intros ys. apply stateless_ret.
Qed.

Lemma stateless_get_headers (E : Env) (o : Obj.t) : stateless (get_headers E o).
Proof.
  unfold get_headers. destruct (Obj.headers o) as [hs|]; [|apply stateless_ret].
  apply stateless_bind.
  - destruct (Obj.method o).
    + apply stateless_bind; [apply stateless_lift|]. intros u.
      apply stateless_bind; [|intros; apply stateless_ret].
      destruct (urlparse_path E u); [apply stateless_raise|apply stateless_ret].
    + destruct (Obj.status o); [apply stateless_ret|apply stateless_raise].
  - intros line. apply stateless_bind; [|intros; apply stateless_ret].
    apply stateless_for_each. intros key.
    destruct (getitem hs key); [apply stateless_ret|apply stateless_raise].
Qed.

(** [write] up to its first [write_record]: a check fails and it raises
    [ValueError] in the state it was called in; or, the identifier drawn,
    the response has no URL or its headers cannot be rendered; or it goes
    on with the response headers and the response content. *)
Lemma write_reaches (E : Env) (fuel : nat) (response request : Obj.t) (st : St) :
  (exists msg, write E fuel response request st = Raise (ValueError msg) st) \/
  (is_Some (Obj.status response) /\ Obj.url response = None /\
   write E fuel response request st = Raise (AttributeError "url") (ticked st)) \/
  (is_Some (Obj.status response) /\
   exists e, (forall s, get_headers E response s = Raise e s) /\
             write E fuel response request st = Raise e (ticked st)) \/
  exists u m d hs b,
    Obj.url response = Some u /\
    Obj.body response = Some b /\
    Obj.meta request = Some m /\
    m !! "WARC-Date" = Some d /\
    truthy d = true /\
    (forall s, get_headers E response s = Ret hs s) /\
    write E fuel response request st =
      (write_record E fuel
         (response_warc_headers u d (record_id_at E (tick (world st))))
         "application/http;msgtype=response" (exchange_content E hs b);;
       write_request E fuel request (record_id_at E (tick (world st))))%py (ticked st).
Proof.
  destruct (stateless_get_headers E response) as [r Hhs].
  unfold write.
  destruct (Obj.status response) as [sv|]; [|left; eauto].
  destruct (negb (bool_decide (is_Some (Some sv)))) eqn:Hs; [left; eauto|].
  destruct (negb (bool_decide (is_Some (Obj.body response)))) eqn:Hb; [left; eauto|].
  destruct (negb (bool_decide (is_Some (Obj.method request)))); [left; eauto|].
  destruct (negb (bool_decide (is_Some (Obj.meta request)))) eqn:Hm; [left; eauto|].
  destruct (Obj.meta request) as [m|]; [|discriminate].
  destruct (Obj.body response) as [b|]; [|discriminate].
  unfold bind. cbn [getattr lift ret].
  destruct (negb (truthy (default PNone (m !! "WARC-Date")))) eqn:Ht; [left; eauto|].
  destruct (m !! "WARC-Date") as [d|] eqn:Hd; [|discriminate].
  cbn in Ht. apply negb_false_iff in Ht.
  rewrite record_id_eq.
  destruct (Obj.url response) as [u|]; [|right; left; eauto].
  cbn [getattr lift ret]. rewrite Hhs.
  destruct r as [e|hs]; [right; right; left; eauto|].
  right; right; right. exists u, m, d, hs, b.
  split; [done|]. split; [done|]. split; [done|]. split; [done|]. split; [done|].
  split; [exact Hhs|]. reflexivity.
Qed.

(** [write_request] up to its [write_record], in the same way. *)
Lemma write_request_reaches (E : Env) (fuel : nat) (request : Obj.t) (cto : string)
    (st : St) :
  (exists e, write_request E fuel request cto st = Raise e st) \/
  (exists e, write_request E fuel request cto st = Raise e (ticked st)) \/
  exists u m d hs b,
    Obj.url request = Some u /\
    Obj.body request = Some b /\
    Obj.meta request = Some m /\
    m !! "WARC-Date" = Some d /\
    (forall s, get_headers E request s = Ret hs s) /\
    write_request E fuel request cto st =
      write_record E fuel
        (request_warc_headers u d (record_id_at E (tick (world st))) cto)
        "application/http;msgtype=request" (exchange_content E hs b) (ticked st).
Proof.
  destruct (stateless_get_headers E request) as [r Hhs].
  unfold write_request.
  destruct (Obj.url request) as [u|]; [|left; eauto].
  destruct (Obj.meta request) as [m|]; [|left; eauto].
  unfold bind. cbn [getattr lift ret].
  destruct (m !! "WARC-Date") as [d|] eqn:Hd; [|left; eauto].
  cbn [ret]. rewrite record_id_eq, Hhs.
  destruct r as [e|hs]; [right; left; eauto|]. cbn [lift ret].
  destruct (Obj.body request) as [b|]; [|right; left; eauto].
  right; right. exists u, m, d, hs, b.
  split; [done|]. split; [done|]. split; [done|]. split; [done|].
  split; [exact Hhs|]. reflexivity.
Qed.

(** ** The destination directory *)

(** X1: when the serial is in range, [warc_dest] is not empty and nothing
    exists at it, [warcfile] raises its error about the destination after
    reading the clock; a [write_record] that decides to rotate ends in
    that error with the files, the log of records, the file name and the
    serial counter as they were; and a [write] on a writer that has no
    segment yet never returns and leaves the files and the log as they
    were. *)
Theorem destination_missing (E : Env) (st : St) :
  (warc_count (self st) <= max_serial (self st))%Z ->
  warc_dest (config (self st)) <> "" ->
  fs (world st) !! warc_dest (config (self st)) = None ->
  warcfile E st =
    Raise (IOError ("warc_dest not found: " +:+ warc_dest (config (self st)))) (ticked st) /\
  (forall fuel hs ct c,
     (1 <= fuel)%nat ->
     decides_rotation st (getsizeof E c) = true ->
     write_record E fuel hs ct c st =
       Raise (IOError ("warc_dest not found: " +:+ warc_dest (config (self st))))
             (ticked (refreshed st))) /\
  (forall fuel response request,
     (1 <= fuel)%nat ->
     warc_fname (self st) = None ->
     (forall st', write E fuel response request st <> Ret tt st') /\
     ends_in (write E fuel response request st)
       (fun st' => fs (world st') = fs (world st) /\
                   trace (world st') = trace (world st) /\
                   self st' = self st)).
Proof.
  intros Hle Hne Hnone.
  assert (Hwf : forall s, self s = self st -> fs (world s) = fs (world st) ->
    warcfile E s = Raise (IOError ("warc_dest not found: "
                                   +:+ warc_dest (config (self st)))) (ticked s)).
  { intros s Hs Hw. rewrite warcfile_cases, Hs.
    destruct (_ <? _)%Z eqn:Hlt; [apply Z.ltb_lt in Hlt; lia|].
    unfold dest_ok. rewrite Hs, Hw, Hnone.
    assert (truthy (PStr (warc_dest (config (self st)))) = true) as ->.
    { cbn. destruct (String.eqb_spec (warc_dest (config (self st))) ""); done. }
    reflexivity. }
  assert (Hwr : forall fuel hs ct c s, (1 <= fuel)%nat ->
    self s = self st -> fs (world s) = fs (world st) ->
    decides_rotation s (getsizeof E c) = true ->
    write_record E fuel hs ct c s =
      Raise (IOError ("warc_dest not found: " +:+ warc_dest (config (self st))))
            (ticked (refreshed s))).
  { intros fuel hs ct c s Hfuel Hs Hw Hd. destruct fuel as [|k]; [lia|].
    cbn [write_record]. unfold bind at 1.
    rewrite bump_serial_with_cases, Hd. unfold bind at 1.
    assert (Hr : warcfile E (refreshed s) = Raise (IOError ("warc_dest not found: "
                   +:+ warc_dest (config (self st)))) (ticked (refreshed s))).
    { rewrite warcfile_cases.
      destruct (refreshed_fields s) as (_ & Hc & Hm & Hcfg).
      rewrite Hc, Hm, refreshed_dest_ok, Hcfg, Hs.
      destruct (_ <? _)%Z eqn:Hlt; [apply Z.ltb_lt in Hlt; lia|].
      unfold dest_ok. rewrite Hs, Hw, Hnone.
      assert (truthy (PStr (warc_dest (config (self st)))) = true) as ->.
      { cbn. destruct (String.eqb_spec (warc_dest (config (self st))) ""); done. }
      reflexivity. }
    by rewrite Hr. }
  split; [by apply Hwf|]. split.
  { intros fuel hs ct c Hfuel Hd. by apply Hwr. }
  intros fuel response request Hfuel Hfn.
  assert (Hrf : forall s, warc_fname (self s) = None -> refreshed s = s).
  { intros s Hs. unfold refreshed. by rewrite Hs. }
  destruct (write_reaches E fuel response request st)
    as [[e He]|[(_ & _ & He)|[(_ & e & _ & He)|(u & m & d & hs & b & _ & _ & _ & _ & _ & _ & He)]]];
    rewrite He.
  - split; [done|]. cbn. done.
  - split; [done|]. cbn. done.
  - split; [done|]. cbn. done.
  - unfold bind at 1 2.
    rewrite (Hwr fuel _ _ _ (ticked st) Hfuel eq_refl eq_refl);
      [|unfold decides_rotation; cbn; by rewrite Hfn].
    split; [done|]. rewrite (Hrf (ticked st) Hfn). cbn. done.
Qed.

Lemma destination_missing_witness :
  (warc_count (self st_no_dest) <= max_serial (self st_no_dest))%Z /\
  warc_dest (config (self st_no_dest)) <> "" /\
  fs (world st_no_dest) !! warc_dest (config (self st_no_dest)) = None /\
  forall st', write env0 2 response0 request0 st_no_dest <> Ret tt st'.
Proof.
  assert (H1 : (warc_count (self st_no_dest) <= max_serial (self st_no_dest))%Z)
    by (cbn; lia).
  assert (H2 : warc_dest (config (self st_no_dest)) <> "") by discriminate.
  assert (H3 : fs (world st_no_dest) !! warc_dest (config (self st_no_dest)) = None)
    by reflexivity.
  repeat (split; [done|]).
  destruct (destination_missing env0 st_no_dest H1 H2 H3) as (_ & _ & Hw).
  destruct (Hw 2%nat response0 request0 (le_S _ _ (le_n 1)) eq_refl) as [Hnever _].
  exact Hnever.
Defined.

(** ** The stored size *)

(** X11: when the current segment is on disk, [bump_serial] does not look
    at the size stored in the writer: whatever that value was, the call
    ends the same way in the same state. *)
Theorem stored_size_is_not_read (E : Env) (fuel : nat) (n z : Z) (st : St) (p : string) :
  warc_fname (self st) = Some p ->
  is_Some (fs (world st) !! p) ->
  bump_serial E fuel n {| self := set_warc_size z (self st); world := world st |}
  = bump_serial E fuel n st.
Proof.
  intros Hf [nd Hp]. unfold bump_serial. rewrite !bump_serial_with_cases.
  assert (Hr : refreshed {| self := set_warc_size z (self st); world := world st |}
               = refreshed st).
  { unfold refreshed. cbn. by rewrite Hf, Hp. }
  assert (Hd : decides_rotation {| self := set_warc_size z (self st); world := world st |} n
               = decides_rotation st n).
  { unfold decides_rotation. cbn. by rewrite Hf, Hp. }
  by rewrite Hr, Hd.
Qed.

Lemma stored_size_is_not_read_witness :
  warc_fname (self (st_segment 9990)) = Some segment0 /\
  is_Some (fs (world (st_segment 9990)) !! segment0) /\
  bump_serial env0 2 150
    {| self := set_warc_size 123456 (self (st_segment 9990));
       world := world (st_segment 9990) |}
  = bump_serial env0 2 150 (st_segment 9990).
Proof.
  assert (H : is_Some (fs (world (st_segment 9990)) !! segment0))
    by (eexists; reflexivity).
  split; [reflexivity|]. split; [exact H|].
  exact (stored_size_is_not_read env0 2 150 123456 (st_segment 9990) segment0 eq_refl H).
Defined.

Example destination_missing_run :
  write env0 2 response0 request0 st_no_dest =
    Raise (IOError "warc_dest not found: /nonexistent") (ticked (ticked st_no_dest)).
Proof. reflexivity. Qed.

(** ** Nothing is ever removed *)

Lemma node_extends_refl (nd : Node) : node_extends nd nd.
Proof. destruct nd as [sz|frs]; cbn; [done|]. exists []. by rewrite app_nil_r. Qed.

Lemma node_extends_trans (a b c : Node) :
  node_extends a b -> node_extends b c -> node_extends a c.
Proof.
  destruct a as [sz|frs]; cbn.
  - intros ->. done.
  - intros [x ->]. cbn. intros [y ->]. exists (x ++ y)%list. by rewrite app_assoc.
Qed.

Lemma append_only_refl (st : St) : append_only st st.
Proof.
  split; [|split; [exists []; by rewrite app_nil_r|repeat split; lia]].
  intros p nd Hp. exists nd. split; [done|apply node_extends_refl].
Qed.

Lemma append_only_trans (a b c : St) :
  append_only a b -> append_only b c -> append_only a c.
Proof.
  intros (Hf1 & [e1 Ht1] & Hk1 & Hc1 & Hm1 & Hg1) (Hf2 & [e2 Ht2] & Hk2 & Hc2 & Hm2 & Hg2).
  split; [|split; [|repeat split; try lia; congruence]].
  - intros p nd Hp. destruct (Hf1 p nd Hp) as (nd1 & Hp1 & He1).
    destruct (Hf2 p nd1 Hp1) as (nd2 & Hp2 & He2).
    exists nd2. split; [done|]. by apply (node_extends_trans _ nd1).
  - exists (e1 ++ e2)%list. by rewrite Ht2, Ht1, app_assoc.
Qed.

Lemma append_only_ticked (st : St) : append_only st (ticked st).
Proof.
  split; [|split; [exists []; by rewrite app_nil_r|repeat split; cbn; lia]].
  intros p nd Hp. exists nd. split; [done|apply node_extends_refl].
Qed.

Lemma append_only_refreshed (st : St) : append_only st (refreshed st).
Proof.
  destruct (refreshed_fields st) as (_ & Hc & Hm & Hg).
  split; [|split; [exists []; by rewrite refreshed_world, app_nil_r|]].
  - intros p nd Hp. exists nd. rewrite refreshed_world. split; [done|apply node_extends_refl].
  - rewrite refreshed_world, Hc, Hm, Hg. repeat split; lia.
Qed.

Lemma append_only_renamed (f : string) (st : St) : append_only st (renamed f st).
Proof.
  destruct (refreshed_fields st) as (_ & Hc & Hm & Hg).
  split; [|split; [exists []; by rewrite app_nil_r|]].
  - intros p nd Hp. exists nd. split; [done|apply node_extends_refl].
  - cbn. rewrite Hc, Hm, Hg. repeat split; lia.
Qed.

Lemma append_only_appended (E : Env) (p : string) (r : WarcRecord) (st : St) :
  (forall sz, fs (world st) !! p <> Some (Dir sz)) ->
  append_only st (appended E p r st).
Proof.
  intros Hnd. split; [|split; [eexists; apply appended_trace|]].
  - intros q nd Hq. rewrite appended_fs.
    destruct (decide (p = q)) as [->|Hne].
    + rewrite lookup_insert_eq. eexists. split; [reflexivity|].
      unfold frames_at. rewrite Hq. destruct nd as [sz|frs]; [by destruct (Hnd sz)|].
      cbn. eauto.
    + rewrite lookup_insert_ne by done. exists nd. split; [done|apply node_extends_refl].
  - unfold appended, append_frame. cbn. repeat split; lia.
Qed.

Lemma append_only_rotated (E : Env) (st : St) :
  fs (world st) !! segment_path E (self st) (tick (world st)) = None ->
  append_only st (rotated E st).
Proof.
  intros Hnone. destruct (refreshed_fields st) as (_ & Hc & Hm & Hg).
  split; [|split; [eexists; apply rotated_trace|]].
  - intros q nd Hq. rewrite (rotated_fs E st Hnone).
    rewrite lookup_insert_ne by congruence.
    exists nd. split; [done|apply node_extends_refl].
  - unfold rotated, append_frame. cbn. rewrite Hm, Hg. repeat split; lia.
Qed.

Lemma ends_in_bind {A B} (m : M A) (k : A -> M B) (R : St -> St -> Prop) (st : St) :
  (forall a b c, R a b -> R b c -> R a c) ->
  ends_in (m st) (R st) ->
  (forall a s1, m st = Ret a s1 -> ends_in (k a s1) (R s1)) ->
  ends_in (bind m k st) (R st).
Proof.
  intros Htr Hm Hk. unfold bind. destruct (m st) as [a s1|e s1|] eqn:Hrun; [|done|done].
  specialize (Hk a s1 eq_refl). cbn in Hm.
  destruct (k a s1) as [b s2|e s2|]; cbn in *; eauto.
Qed.

Lemma write_record_append_only (E : Env) (fuel : nat) (hs : list (string * PyVal))
    (ct c : string) (st : St) :
  (2 <= fuel)%nat ->
  ends_in (write_record E fuel hs ct c st) (append_only st).
Proof.
  intros Hfuel. destruct (write_record E fuel hs ct c st) as [[] s|e s|] eqn:Hw; cbn; [| |done].
  - apply (write_record_Ret _ _ _ _ _ _ _ Hfuel) in Hw
      as [(_ & p & _ & Hnd & ->)|(_ & _ & _ & Hnone & ->)].
    + apply (append_only_trans _ (refreshed st)); [apply append_only_refreshed|].
      apply append_only_appended. by rewrite refreshed_world.
    + apply (append_only_trans _ (rotated E st)); [by apply append_only_rotated|].
      apply append_only_appended. intros sz. rewrite (rotated_fs E st Hnone).
      by rewrite lookup_insert_eq.
  - apply (write_record_Raise _ _ _ _ _ _ _ _ Hfuel) in Hw
      as [->|[->|[->|(_ & Hnone & ->)]]].
    + apply append_only_refreshed.
    + apply (append_only_trans _ (refreshed st));
        [apply append_only_refreshed|apply append_only_ticked].
    + apply append_only_renamed.
    + by apply append_only_rotated.
Qed.

Lemma write_request_append_only (E : Env) (fuel : nat) (request : Obj.t) (cto : string)
    (st : St) :
  (2 <= fuel)%nat ->
  ends_in (write_request E fuel request cto st) (append_only st).
Proof.
  intros Hfuel.
  destruct (write_request_reaches E fuel request cto st)
    as [[e ->]|[[e ->]|(u & m & d & hs & b & _ & _ & _ & _ & _ & ->)]]; cbn.
  - apply append_only_refl.
  - apply append_only_ticked.
  - pose proof (write_record_append_only E fuel
      (request_warc_headers u d (record_id_at E (tick (world st))) cto)
      "application/http;msgtype=request" (exchange_content E hs b) (ticked st) Hfuel) as H.
    destruct (write_record _ _ _ _ _ _) as [[] s|e s|]; cbn in *; [| |done];
      (eapply append_only_trans; [apply append_only_ticked|exact H]).
Qed.

(** X3: however [write] ends, returning or raising, the later state has
    every path of the earlier one, every directory as it was and every
    file with its earlier frames as a prefix of its frames; the log of
    records has only grown at its end, the serial counter has not
    decreased, and the largest serial and the configuration are
    unchanged. *)
Theorem write_is_append_only (E : Env) (fuel : nat) (response request : Obj.t) (st : St) :
  (2 <= fuel)%nat ->
  ends_in (write E fuel response request st) (append_only st).
Proof.
  intros Hfuel.
  destruct (write_reaches E fuel response request st)
    as [[e ->]|[(_ & _ & ->)|[(_ & e & _ & ->)|(u & m & d & hs & b & _ & _ & _ & _ & _ & _ & ->)]]].
  - apply append_only_refl.
  - apply append_only_ticked.
  - apply append_only_ticked.
  - assert (Hgo : ends_in
      ((write_record E fuel (response_warc_headers u d (record_id_at E (tick (world st))))
          "application/http;msgtype=response" (exchange_content E hs b);;
        write_request E fuel request (record_id_at E (tick (world st))))%py (ticked st))
      (append_only (ticked st))).
    { apply ends_in_bind; [apply append_only_trans|by apply write_record_append_only|].
      intros [] s1 _. by apply write_request_append_only. }
    destruct (bind _ _ _) as [[] s|e s|]; cbn in *; [| |done];
      (eapply append_only_trans; [apply append_only_ticked|exact Hgo]).
Qed.

Lemma write_is_append_only_witness :
  (2 <= 2)%nat /\
  ends_in (write env0 2 response0 request0 (st_segment 9650))
          (append_only (st_segment 9650)).
Proof.
  split; [lia|].
  apply (write_is_append_only env0 2 response0 request0 (st_segment 9650)). lia.
Defined.

(** ** The first record of a segment *)

Lemma warcinfo_record_filename (E : Env) (cfg : Config) (f : string) (t : nat) :
  header_of (warcinfo_record E cfg f t) "WARC-Filename" = Some (PStr f).
Proof. reflexivity. Qed.

Lemma decides_rotation_first (st : St) (n : Z) :
  warc_fname (self st) = None -> decides_rotation st n = true.
Proof. intros H. unfold decides_rotation. by rewrite H. Qed.

Lemma appended_rotated_fs (E : Env) (r : WarcRecord) (st : St) :
  fs (world st) !! segment_path E (self st) (tick (world st)) = None ->
  fs (world (appended E (segment_path E (self st) (tick (world st))) r (rotated E st))) =
  <[segment_path E (self st) (tick (world st)) :=
      File [frame_at E (S (S (S (tick (world st)))))
              (warcinfo_record E (config (self st))
                 (segment_path E (self st) (tick (world st))) (tick (world st)));
            frame_at E (S (S (S (S (tick (world st)))))) r]]>
    (fs (world st)).
Proof.
  intros Hnone. rewrite appended_fs, (rotated_fs E st Hnone).
  by rewrite frames_at_insert, insert_insert_eq.
Qed.

(** X2: a writer that has no segment yet rotates whatever the size of
    the content and whatever the limit.  When its [write_record] returns,
    the writer is on the computed path, at which nothing existed; the
    serial counter has advanced by one; that file holds exactly the
    segment-info record and then the written record, every other path
    being as before; and the segment-info record names that very path in
    [WARC-Filename] and has as its payload eight lines joined by CRLF:
    the software line with the version of Scrapy, the format line, and
    one line each for [warc_spec], [operator], [collection],
    [description], [robots] and [user_agent] of the configuration. *)
Theorem first_write_begins_segment (E : Env) (fuel : nat) (hs : list (string * PyVal))
    (ct c : string) (st st' : St) :
  (2 <= fuel)%nat ->
  warc_fname (self st) = None ->
  write_record E fuel hs ct c st = Ret tt st' ->
  fs (world st) !! segment_path E (self st) (tick (world st)) = None /\
  warc_fname (self st') = Some (segment_path E (self st) (tick (world st))) /\
  warc_count (self st') = (warc_count (self st) + 1)%Z /\
  exists info,
    fs (world st') =
      <[segment_path E (self st) (tick (world st)) :=
          File [info; frame_at E (S (S (S (S (tick (world st)))))) (make_record hs c)]]>
        (fs (world st)) /\
    is_warcinfo (frame_record info) = true /\
    header_of (frame_record info) "WARC-Filename"
      = Some (PStr (segment_path E (self st) (tick (world st)))) /\
    payload (frame_record info)
      = Py.join WARC_LINE_SEP
          [ "software: Scrapy/" +:+ scrapy_version E +:+ " (+https://scrapy.org)";
            "format: WARC file version 1.0";
            "conformsTo: " +:+ warc_spec (config (self st));
            "operator: " +:+ operator (config (self st));
            "isPartOf: " +:+ collection (config (self st));
            "description: " +:+ description (config (self st));
            "robots: " +:+ robots (config (self st));
            "http-header-user-agent: " +:+ user_agent (config (self st)) ].
Proof.
  intros Hfuel Hfn Hw.
  apply (write_record_Ret _ _ _ _ _ _ _ Hfuel) in Hw
    as [(Hd & _)|(_ & _ & _ & Hnone & ->)].
  { by rewrite decides_rotation_first in Hd. }
  split; [done|]. rewrite appended_self, rotated_fname, rotated_count.
  split; [done|]. split; [done|].
  eexists. split; [apply (appended_rotated_fs E _ st Hnone)|].
  split; [apply warcinfo_record_kind|]. split; [apply warcinfo_record_filename|].
  reflexivity.
Qed.

Lemma first_write_begins_segment_witness :
  exists st' info rec,
    write_record env0 2 (response_warc_headers "http://quotes.toscrape.com/"
                           (PStr "2024-01-01T00:00:00Z") (record_id_at env0 0))
      "application/http;msgtype=response" "HTTP/1.0 200" st_fresh = Ret tt st' /\
    warc_fname (self st') = Some segment0 /\
    fs (world st') = <[segment0 := File [info; rec]]> ∅ /\
    header_of (frame_record info) "WARC-Filename" = Some (PStr segment0) /\
    payload (frame_record info)
      = Py.join WARC_LINE_SEP
          [ "software: Scrapy/2.11.0 (+https://scrapy.org)";
            "format: WARC file version 1.0";
            "conformsTo: https://iipc.github.io/warc-specifications/specifications/warc-format/warc-1.0/";
            "operator: john@doe.nl";
            "isPartOf: quotes";
            "description: description";
            "robots: obey";
            "http-header-user-agent: " ].
Proof.
  eexists.
  edestruct (first_write_begins_segment env0 2
               (response_warc_headers "http://quotes.toscrape.com/"
                  (PStr "2024-01-01T00:00:00Z") (record_id_at env0 0))
               "application/http;msgtype=response" "HTTP/1.0 200" st_fresh)
    as (_ & Hfn & _ & info & Hfs & _ & Hname & Hpay);
    [lia|reflexivity|vm_compute; reflexivity|].
  exists info. eexists. split; [vm_compute; reflexivity|].
  split; [exact Hfn|]. split; [exact Hfs|]. split; [exact Hname|exact Hpay].
Defined.

Lemma segments_begun_ticked (st : St) : segments_begun st -> segments_begun (ticked st).
Proof. intros H. exact H. Qed.

Lemma write_record_keeps_segments_begun (E : Env) (fuel : nat)
    (hs : list (string * PyVal)) (ct c : string) (st st' : St) :
  (2 <= fuel)%nat ->
  segments_begun st ->
  write_record E fuel hs ct c st = Ret tt st' ->
  segments_begun st'.
Proof.
  intros Hfuel [Hcur Hall] Hw.
  apply (write_record_Ret _ _ _ _ _ _ _ Hfuel) in Hw
    as [(_ & p & Hp & Hnd & ->)|(_ & _ & _ & Hnone & ->)].
  - destruct (refreshed_fields st) as (Hfn & _).
    destruct (Hcur p Hp) as [nd Hnode].
    destruct nd as [sz|frs]; [by destruct (Hnd sz)|].
    destruct (Hall p frs Hnode) as (fr & rest & -> & Hinfo).
    split.
    + intros q. rewrite appended_self, Hfn, Hp. intros [= <-].
      rewrite appended_fs, lookup_insert_eq. eauto.
    + intros q frs'. rewrite appended_fs, !refreshed_world.
      destruct (decide (p = q)) as [<-|Hne].
      * rewrite lookup_insert_eq. unfold frames_at. rewrite Hnode.
        intros [= <-]. exists fr. eexists. split; [reflexivity|done].
      * rewrite lookup_insert_ne by done. apply Hall.
  - set (f := segment_path E (self st) (tick (world st))) in *.
    split.
    + intros q. rewrite appended_self, rotated_fname. intros [= <-].
      rewrite (appended_rotated_fs E _ st Hnone), lookup_insert_eq. eauto.
    + intros q frs'. rewrite (appended_rotated_fs E _ st Hnone). fold f.
      destruct (decide (f = q)) as [<-|Hne].
      * rewrite lookup_insert_eq. intros [= <-]. eexists _, _. split; [reflexivity|].
        apply warcinfo_record_kind.
      * rewrite lookup_insert_ne by done. apply Hall.
Qed.

(** X9: if the writer's current segment file is on disk and every file
    on disk begins with a segment-info record, the same holds after a
    [write] that returns. *)
Theorem write_keeps_segments_begun (E : Env) (fuel : nat) (response request : Obj.t)
    (st st' : St) :
  (2 <= fuel)%nat ->
  segments_begun st ->
  write E fuel response request st = Ret tt st' ->
  segments_begun st'.
Proof.
  intros Hfuel Hinv Hw.
  apply write_Ret in Hw as (u & m & d & c & st1 & _ & _ & _ & _ & Hw1 & Hw2).
  apply write_request_Ret in Hw2 as (u2 & m2 & d2 & c2 & _ & _ & _ & Hw2).
  apply (write_record_keeps_segments_begun _ _ _ _ _ _ _ Hfuel) in Hw1;
    [|by apply segments_begun_ticked].
  apply (write_record_keeps_segments_begun _ _ _ _ _ _ _ Hfuel) in Hw2;
    [done|by apply segments_begun_ticked].
Qed.

(** A writer on a segment that holds its segment-info record. *)
Lemma segments_begun_segment (size : Z) : segments_begun (st_segment size).
Proof.
  split.
  - intros p [= <-]. exists (File [earlier_frame size]).
    change (fs (world (st_segment size)))
      with ({[ segment0 := File [earlier_frame size] ]} : gmap string Node).
    apply lookup_singleton_eq.
  - intros p frs H.
    change (fs (world (st_segment size)))
      with ({[ segment0 := File [earlier_frame size] ]} : gmap string Node) in H.
    apply lookup_singleton_Some in H as [_ [= <-]].
    exists (earlier_frame size), []. split; reflexivity.
Defined.

Lemma write_keeps_segments_begun_witness :
  exists st' info rsp req,
    write env0 2 response0 request0 (st_segment 900) = Ret tt st' /\
    fs (world (st_segment 900)) !! segment0 = Some (File [info]) /\
    fs (world st') !! segment0 = Some (File [info; rsp; req]) /\
    is_warcinfo (frame_record info) = true /\
    segments_begun (st_segment 900) /\
    segments_begun st'.
Proof.
  eexists _, _, _, _. split; [vm_compute; reflexivity|].
  split; [vm_compute; reflexivity|]. split; [vm_compute; reflexivity|].
  split; [vm_compute; reflexivity|]. split; [exact (segments_begun_segment 900)|].
  apply (write_keeps_segments_begun env0 2 response0 request0 (st_segment 900));
    [lia|exact (segments_begun_segment 900)|vm_compute; reflexivity].
Defined.

(** ** The serial counter and the segments *)

Lemma new_events_app (a b : St) (evs : list (string * WarcRecord)) :
  trace (world b) = (trace (world a) ++ evs)%list -> new_events a b = evs.
Proof. intros H. unfold new_events. by rewrite H, drop_app_length. Qed.

Lemma info_events_app (l1 l2 : list (string * WarcRecord)) :
  info_events (l1 ++ l2) = (info_events l1 ++ info_events l2)%list.
Proof. unfold info_events. apply filter_app. Qed.

(** What a returning [write_record] logs, and what it does to the serial
    counter: one record and no change, or the segment-info record of a
    path that did not exist, then the record, and one more segment. *)
Lemma write_record_events (E : Env) (fuel : nat) (hs : list (string * PyVal))
    (ct c : string) (st st' : St) :
  (2 <= fuel)%nat ->
  write_record E fuel hs ct c st = Ret tt st' ->
  (exists p,
     trace (world st') = (trace (world st) ++ [(p, make_record hs c)])%list /\
     warc_count (self st') = warc_count (self st)) \/
  (exists f info,
     trace (world st') = (trace (world st) ++ [(f, info); (f, make_record hs c)])%list /\
     warc_count (self st') = (warc_count (self st) + 1)%Z /\
     fs (world st) !! f = None /\
     is_warcinfo info = true /\
     header_of info "WARC-Filename" = Some (PStr f)).
Proof.
  intros Hfuel Hw.
  apply (write_record_Ret _ _ _ _ _ _ _ Hfuel) in Hw
    as [(_ & p & _ & _ & ->)|(_ & _ & _ & Hnone & ->)].
  - left. exists p. rewrite appended_trace, appended_self, refreshed_world.
    destruct (refreshed_fields st) as (_ & -> & _). done.
  - right. eexists _, _. rewrite appended_trace, rotated_trace, <- app_assoc.
    split; [reflexivity|]. rewrite appended_self, rotated_count.
    split; [done|]. split; [exact Hnone|].
    split; [apply warcinfo_record_kind|apply warcinfo_record_filename].
Qed.

(** X4: after a [write] that returns, the serial counter has grown by
    exactly the number of segment-info records the call has logged; each
    of them went to a path at which nothing existed when the call began,
    and names that path in its [WARC-Filename]. *)
Theorem serial_counts_new_segments (E : Env) (fuel : nat) (response request : Obj.t)
    (st st' : St) :
  (2 <= fuel)%nat ->
  write E fuel response request st = Ret tt st' ->
  warc_count (self st') =
    (warc_count (self st) + Z.of_nat (length (info_events (new_events st st'))))%Z /\
  Forall (fun ev => fs (world st) !! ev.1 = None /\
                    header_of ev.2 "WARC-Filename" = Some (PStr ev.1))
         (info_events (new_events st st')).
Proof.
  intros Hfuel Hw.
  apply write_Ret in Hw as (u & m & d & c & st1 & _ & _ & _ & _ & Hw1 & Hw2).
  apply write_request_Ret in Hw2 as (u2 & m2 & d2 & c2 & _ & _ & _ & Hw2).
  pose proof (write_record_append_only E fuel
    (response_warc_headers u d (record_id_at E (tick (world st))))
    "application/http;msgtype=response" c (ticked st) Hfuel) as Hao.
  rewrite Hw1 in Hao. cbn in Hao. destruct Hao as (Hkeep & _).
  assert (Hold : forall q, fs (world (ticked st1)) !! q = None -> fs (world st) !! q = None).
  { intros q Hq. destruct (fs (world st) !! q) as [nd|] eqn:Hnd; [|done].
    destruct (Hkeep q nd Hnd) as (nd' & Hq' & _). cbn in Hq. congruence. }
  apply (write_record_events _ _ _ _ _ _ _ Hfuel) in Hw1, Hw2.
  set (rsp := make_record (response_warc_headers u d (record_id_at E (tick (world st)))) c)
    in *.
  set (req := make_record (request_warc_headers u2 d2 (record_id_at E (tick (world st1)))
                             (record_id_at E (tick (world st)))) c2) in *.
  assert (Hrsp : is_warcinfo rsp = false)
    by (apply (kind_not_warcinfo _ "response"); [apply response_record_kind|done]).
  assert (Hreq : is_warcinfo req = false)
    by (apply (kind_not_warcinfo _ "request"); [apply request_record_kind|done]).
  cbn [ticked self world next_tick trace fs] in Hw1, Hw2.
  destruct Hw1 as [(p1 & Ht1 & Hc1)|(f1 & i1 & Ht1 & Hc1 & Hn1 & Hi1 & Hf1)];
  destruct Hw2 as [(p2 & Ht2 & Hc2)|(f2 & i2 & Ht2 & Hc2 & Hn2 & Hi2 & Hf2)];
  rewrite Ht1, <- app_assoc in Ht2; rewrite (new_events_app _ _ _ Ht2);
  unfold info_events; cbn [filter list_filter app snd];
  rewrite ?Hrsp, ?Hreq, ?Hi1, ?Hi2; repeat case_decide; try discriminate; try done;
  cbn [length].
  - split; [lia|constructor].
  - split; [lia|]. repeat constructor; cbn [fst snd]; [by apply Hold|done].
  - split; [lia|]. repeat constructor; cbn [fst snd]; done.
  - split; [lia|]. repeat constructor; cbn [fst snd]; try done. by apply Hold.
Qed.

Lemma serial_counts_new_segments_witness :
  exists st',
    write env0 2 response0 request0 (st_segment 9650) = Ret tt st' /\
    warc_count (self st') = 2%Z /\
    length (info_events (new_events (st_segment 9650) st')) = 1%nat.
Proof.
  eexists.
  edestruct (serial_counts_new_segments env0 2 response0 request0 (st_segment 9650))
    as [Hc _]; [lia|vm_compute; reflexivity|].
  split; [vm_compute; reflexivity|]. split; [|vm_compute; reflexivity].
  rewrite Hc. vm_compute. reflexivity.
Defined.

(** ** The rendered headers *)

Lemma getitem_NoDup (hs : list (PyVal * PyVal)) (k v : PyVal) :
  NoDup (map fst hs) -> (k, v) ∈ hs -> getitem hs k = Some v.
Proof.
  induction hs as [|[k' v'] hs IH]; intros Hnd Hin.
  - by apply elem_of_nil in Hin.
  - cbn [map fst] in Hnd. apply NoDup_cons in Hnd as [Hnotin Hnd].
    cbn [getitem]. apply elem_of_cons in Hin as [[= -> ->]|Hin].
    + by rewrite decide_True.
    + rewrite decide_False; [by apply IH|].
      intros ->. apply Hnotin. apply list_elem_of_fmap. by exists (k, v).
Qed.

(** The loop of [get_headers] over a mapping with distinct keys gives one
    line per item, in the order of iteration. *)
Lemma header_lines_NoDup (E : Env) (hs items : list (PyVal * PyVal)) (st : St) :
  NoDup (map fst hs) ->
  (forall kv, kv ∈ items -> kv ∈ hs) ->
  for_each (map fst items) (fun key =>
    match getitem hs key with
    | Some val => ret (py_str E key +:+ ": " +:+ py_str E val)
    | None => raise (KeyError (py_str E key))
    end) st = Ret (map (header_line E) items) st.
Proof.
  intros Hnd. induction items as [|[k v] items IH]; intros Hsub; [reflexivity|].
  cbn [map fst for_each]. unfold bind at 1.
  rewrite (getitem_NoDup hs k v Hnd) by (apply Hsub; by left).
  unfold ret at 1. unfold bind at 1.
  rewrite IH by (intros kv Hkv; apply Hsub; by right). reflexivity.
Qed.

(** X5: for a record whose header mapping has distinct keys,
    [get_headers] returns the CRLF-join of the first line and of one line
    [key: value] per header, in the order of iteration, with nothing
    after the last line.  The first line is the method, the path of the
    URL and [HTTP/1.0] for a record with a method and a URL that
    [urlparse] splits, and [HTTP/1.0] and the status for a record with a
    status and no method. *)
Theorem get_headers_lines (E : Env) (o : Obj.t) (hs : list (PyVal * PyVal)) (st : St) :
  Obj.headers o = Some hs ->
  NoDup (map fst hs) ->
  (forall m u path,
     Obj.method o = Some m -> Obj.url o = Some u -> urlparse_path E u = inr path ->
     get_headers E o st =
       Ret (Py.join WARC_LINE_SEP
              ((m +:+ " " +:+ path +:+ " HTTP/1.0")
               :: map (header_line E) hs)) st) /\
  (forall s,
     Obj.method o = None -> Obj.status o = Some s ->
     get_headers E o st =
       Ret (Py.join WARC_LINE_SEP
              (("HTTP/1.0 " +:+ py_str E s) :: map (header_line E) hs)) st).
Proof.
  intros Hh Hnd.
  pose proof (header_lines_NoDup E hs hs st Hnd (fun kv H => H)) as Hrun.
  split.
  - intros m u path Hm Hu Hpath. unfold get_headers. rewrite Hh, Hm, Hu.
    unfold bind. cbn [getattr lift ret]. rewrite Hpath. cbn [ret].
    rewrite Hrun. reflexivity.
  - intros s Hm Hs. unfold get_headers. rewrite Hh, Hm, Hs.
    unfold bind. cbn [ret]. rewrite Hrun. reflexivity.
Qed.

Lemma get_headers_lines_witness :
  NoDup (map fst [(PBytes "Content-Type", PBytes "text/html");
                  (PBytes "Server", PBytes "nginx")]) /\
  get_headers env0
    (Obj.mk (Some "http://quotes.toscrape.com/") None (Some (PInt 200)) (Some (PBytes "ok"))
            (Some [(PBytes "Content-Type", PBytes "text/html");
                   (PBytes "Server", PBytes "nginx")]) None) st_fresh =
    Ret ("HTTP/1.0 200" +:+ WARC_LINE_SEP +:+
         "b'Content-Type': b'text/html'" +:+ WARC_LINE_SEP +:+
         "b'Server': b'nginx'") st_fresh /\
  get_headers env0
    (Obj.mk (Some "http://quotes.toscrape.com/") (Some "GET") None (Some (PBytes ""))
            (Some [(PBytes "Content-Type", PBytes "text/html");
                   (PBytes "Server", PBytes "nginx")]) None) st_fresh =
    Ret ("GET / HTTP/1.0" +:+ WARC_LINE_SEP +:+
         "b'Content-Type': b'text/html'" +:+ WARC_LINE_SEP +:+
         "b'Server': b'nginx'") st_fresh.
Proof.
  assert (Hnd : NoDup (map fst [(PBytes "Content-Type", PBytes "text/html");
                                (PBytes "Server", PBytes "nginx")])).
  { cbn. repeat constructor; rewrite ?elem_of_cons, ?elem_of_nil; intros H;
      repeat destruct H as [H|H]; try discriminate H; done. }
  split; [exact Hnd|]. split.
  - destruct (get_headers_lines env0
      (Obj.mk (Some "http://quotes.toscrape.com/") None (Some (PInt 200)) (Some (PBytes "ok"))
              (Some [(PBytes "Content-Type", PBytes "text/html");
                     (PBytes "Server", PBytes "nginx")]) None)
      _ st_fresh eq_refl Hnd) as [_ Hrsp].
    exact (Hrsp (PInt 200) eq_refl eq_refl).
  - destruct (get_headers_lines env0
      (Obj.mk (Some "http://quotes.toscrape.com/") (Some "GET") None (Some (PBytes ""))
              (Some [(PBytes "Content-Type", PBytes "text/html");
                     (PBytes "Server", PBytes "nginx")]) None)
      _ st_fresh eq_refl Hnd) as [Hreq _].
    exact (Hreq "GET" "http://quotes.toscrape.com/" "/" eq_refl eq_refl eq_refl).
Defined.

(** ** What the two records of an exchange hold *)

Lemma write_Ret_content (E : Env) (fuel : nat) (response request : Obj.t) (st st' : St) :
  write E fuel response request st = Ret tt st' ->
  exists u1 u2 m d hs1 hs2 b1 b2 st1,
    Obj.url response = Some u1 /\ Obj.body response = Some b1 /\
    Obj.url request = Some u2 /\ Obj.body request = Some b2 /\
    Obj.meta request = Some m /\ m !! "WARC-Date" = Some d /\
    (forall s, get_headers E response s = Ret hs1 s) /\
    (forall s, get_headers E request s = Ret hs2 s) /\
    write_record E fuel
      (response_warc_headers u1 d (record_id_at E (tick (world st))))
      "application/http;msgtype=response" (exchange_content E hs1 b1) (ticked st)
      = Ret tt st1 /\
    write_record E fuel
      (request_warc_headers u2 d (record_id_at E (tick (world st1)))
         (record_id_at E (tick (world st))))
      "application/http;msgtype=request" (exchange_content E hs2 b2) (ticked st1)
      = Ret tt st'.
Proof.
  intros Hw.
  destruct (write_reaches E fuel response request st)
    as [[e He]|[(_ & _ & He)|[(_ & e & _ & He)|(u1 & m & d & hs1 & b1 & Hu1 & Hb1 & Hm & Hd & _ & Hh1 & He)]]];
    rewrite He in Hw; try discriminate.
  apply bind_Ret_inv in Hw as ([] & st1 & Hw1 & Hw2).
  destruct (write_request_reaches E fuel request (record_id_at E (tick (world st))) st1)
    as [[e He2]|[[e He2]|(u2 & m2 & d2 & hs2 & b2 & Hu2 & Hb2 & Hm2 & Hd2 & Hh2 & He2)]];
    rewrite He2 in Hw2; try discriminate.
  assert (m2 = m) as -> by congruence. assert (d2 = d) as -> by congruence.
  exists u1, u2, m, d, hs1, hs2, b1, b2, st1. done.
Qed.

(** X6: the two exchange records of a returning [write] are built from
    their own objects.  The payload of the response record is the
    rendered headers of the response, two CRLF and [str] of its body, and
    the payload of the request record is the same of the request.  The
    URL of each object is the [WARC-Target-URI] entry of the header list
    of its record, which lies in the HTTP header block; the record itself
    is created for the fixed URI [https://www.test.nl], with the record
    type [response] and without WARC headers of the caller. *)
Theorem records_hold_their_objects (E : Env) (fuel : nat) (response request : Obj.t)
    (st st' : St) :
  (2 <= fuel)%nat ->
  write E fuel response request st = Ret tt st' ->
  exists u1 u2 hs1 hs2 b1 b2 p1 rsp p2 req,
    exchange_events (new_events st st') = [(p1, rsp); (p2, req)] /\
    Obj.url response = Some u1 /\ Obj.body response = Some b1 /\
    get_headers E response st = Ret hs1 st /\
    Obj.url request = Some u2 /\ Obj.body request = Some b2 /\
    get_headers E request st = Ret hs2 st /\
    payload rsp = hs1 +:+ WARC_LINE_SEP +:+ WARC_LINE_SEP +:+ py_str E b1 /\
    payload req = hs2 +:+ WARC_LINE_SEP +:+ WARC_LINE_SEP +:+ py_str E b2 /\
    get_header (sh_headers (http_headers rsp)) "WARC-Target-URI" = Some (PStr u1) /\
    get_header (sh_headers (http_headers req)) "WARC-Target-URI" = Some (PStr u2) /\
    uri rsp = "https://www.test.nl" /\ uri req = "https://www.test.nl" /\
    record_type rsp = "response" /\ record_type req = "response" /\
    warc_headers rsp = None /\ warc_headers_dict rsp = None /\
    warc_headers req = None /\ warc_headers_dict req = None.
Proof.
  intros Hfuel Hw.
  apply write_Ret_content in Hw
    as (u1 & u2 & m & d & hs1 & hs2 & b1 & b2 & st1 &
        Hu1 & Hb1 & Hu2 & Hb2 & _ & _ & Hh1 & Hh2 & Hw1 & Hw2).
  apply (write_record_trace _ _ _ _ _ _ _ Hfuel) in Hw1
    as (p1 & pre1 & _ & Ht1 & Hpre1 & _).
  apply (write_record_trace _ _ _ _ _ _ _ Hfuel) in Hw2
    as (p2 & pre2 & _ & Ht2 & Hpre2 & _).
  cbn [ticked world next_tick trace] in Ht1, Ht2.
  exists u1, u2, hs1, hs2, b1, b2, p1. eexists. exists p2. eexists.
  split.
  { rewrite Ht1, <- !app_assoc in Ht2. rewrite (new_events_app _ _ _ Ht2).
    rewrite !exchange_events_app, Hpre1, Hpre2.
    rewrite !exchange_events_keep; [reflexivity| |].
    - apply (kind_not_warcinfo _ "request"); [apply request_record_kind|done].
    - apply (kind_not_warcinfo _ "response"); [apply response_record_kind|done]. }
  split; [done|]. split; [done|]. split; [apply Hh1|].
  split; [done|]. split; [done|]. split; [apply Hh2|].
  repeat split; reflexivity.
Qed.

Lemma records_hold_their_objects_witness :
  exists st' p1 rsp p2 req,
    write env0 2 response0 request0 st_fresh = Ret tt st' /\
    exchange_events (new_events st_fresh st') = [(p1, rsp); (p2, req)] /\
    payload req = "GET / HTTP/1.0" +:+ WARC_LINE_SEP +:+ WARC_LINE_SEP +:+ "b''" /\
    get_header (sh_headers (http_headers req)) "WARC-Target-URI"
      = Some (PStr "http://quotes.toscrape.com/") /\
    uri req = "https://www.test.nl" /\
    warc_headers req = None /\ warc_headers_dict req = None.
Proof.
  eexists.
  edestruct (records_hold_their_objects env0 2 response0 request0 st_fresh)
    as (u1 & u2 & hs1 & hs2 & b1 & b2 & p1 & rsp & p2 & req &
        Hev & _ & _ & _ & Hu2 & Hb2 & Hh2 & _ & Hpay & _ & Htarget & _ & Huri &
        _ & _ & _ & _ & Hwh & Hwd);
    [lia|vm_compute; reflexivity|].
  injection Hu2 as <-. injection Hb2 as <-. injection Hh2 as <-.
  exists p1, rsp, p2, req. split; [vm_compute; reflexivity|].
  split; [exact Hev|]. split; [exact Hpay|]. split; [exact Htarget|].
  split; [exact Huri|]. split; [exact Hwh|exact Hwd].
Defined.

(** ** The middleware and the writer together *)

(** X7: [process_request] followed by [process_response] on the stamped
    request.  The stamping only reads the clock; whatever [WARC-Date] the
    request's meta held before, when [process_response] returns it hands
    back the response it was given, and both exchange records carry the
    date the clock gave at the stamping. *)
Theorem middleware_stamps_both_records (E : Env) (fuel : nat) (request response : Obj.t)
    (m : gmap string PyVal) (st st' : St) (request' r : Obj.t) (st1 : St) :
  (2 <= fuel)%nat ->
  Obj.meta request = Some m ->
  process_request E request st = Ret request' st1 ->
  process_response E fuel request' response st1 = Ret r st' ->
  st1 = ticked st /\
  r = response /\
  exists p1 rsp p2 req,
    exchange_events (new_events st st') = [(p1, rsp); (p2, req)] /\
    header_of rsp "WARC-Date" = Some (PStr (warc_date E (tick (world st)))) /\
    header_of req "WARC-Date" = Some (PStr (warc_date E (tick (world st)))).
Proof.
  intros Hfuel Hm Hreq Hresp.
  destruct (process_request_stamps E request m st Hm) as (rq & Hrun & Hmeta & _).
  rewrite Hrun in Hreq. injection Hreq as <- <-.
  unfold process_response in Hresp.
  apply bind_Ret_inv in Hresp as ([] & s2 & Hw & Hret). injection Hret as <- <-.
  split; [done|]. split; [done|].
  destruct (write_exchange_events E fuel response rq (ticked st) s2 Hfuel Hw)
    as (u1 & u2 & m' & d & c1 & c2 & p1 & p2 & t2 & Hm' & Hd & Hev).
  rewrite Hmeta in Hm'. injection Hm' as <-.
  rewrite lookup_insert_eq in Hd. injection Hd as <-.
  eexists p1, _, p2, _. split; [exact Hev|]. split; reflexivity.
Qed.

Lemma middleware_stamps_both_records_witness :
  exists request' st' p1 rsp p2 req,
    process_request env0 request_unstamped st_fresh = Ret request' (ticked st_fresh) /\
    process_response env0 2 request' response0 (ticked st_fresh) = Ret response0 st' /\
    exchange_events (new_events st_fresh st') = [(p1, rsp); (p2, req)] /\
    header_of rsp "WARC-Date" = Some (PStr "2024-01-01T00:00:00Z") /\
    header_of req "WARC-Date" = Some (PStr "2024-01-01T00:00:00Z").
Proof.
  eexists. eexists.
  edestruct (middleware_stamps_both_records env0 2 request_unstamped response0 ∅ st_fresh)
    as (_ & _ & p1 & rsp & p2 & req & Hev & H1 & H2);
    [lia|reflexivity|vm_compute; reflexivity|vm_compute; reflexivity|].
  exists p1, rsp, p2, req.
  split; [vm_compute; reflexivity|]. split; [vm_compute; reflexivity|].
  split; [exact Hev|]. split; [exact H1|exact H2].
Defined.

(** ** Which exceptions the writing methods raise *)

Lemma raises_only_ret {A} (P : Err -> Prop) (a : A) : raises_only P (ret a).
Proof. intros st e st' H. discriminate H. Qed.

Lemma raises_only_raise {A} (P : Err -> Prop) (e : Err) : P e -> raises_only P (@raise A e).
Proof. intros HP st e' st' [= <- _]. exact HP. Qed.

Lemma raises_only_gets {A} (P : Err -> Prop) (f : St -> A) : raises_only P (gets f).
Proof. intros st e st' H. discriminate H. Qed.

Lemma raises_only_set_self (P : Err -> Prop) (f : Writer -> Writer) :
  raises_only P (set_self f).
Proof. intros st e st' H. discriminate H. Qed.

Lemma raises_only_set_world (P : Err -> Prop) (f : World -> World) :
  raises_only P (set_world f).
Proof. intros st e st' H. discriminate H. Qed.

Lemma raises_only_bind {A B} (P : Err -> Prop) (m : M A) (k : A -> M B) :
  raises_only P m -> (forall a, raises_only P (k a)) -> raises_only P (bind m k).
Proof.
  intros Hm Hk st e st' H. apply bind_Raise_inv in H as [H|(a & s1 & _ & H)].
  - by apply (Hm st e st').
  - by apply (Hk a s1 e st').
Qed.

Lemma raises_only_for_each {A B} (P : Err -> Prop) (l : list A) (f : A -> M B) :
  (forall x, raises_only P (f x)) -> raises_only P (for_each l f).
Proof.
  intros Hf. induction l as [|x l IH]; cbn [for_each].
  - apply raises_only_ret.
  - apply raises_only_bind; [apply Hf|]. intros y.
    apply raises_only_bind; [apply IH|]. intros ys. apply raises_only_ret.
Qed.

Lemma raises_only_ask (P : Err -> Prop) (oracle : nat -> string) : raises_only P (ask oracle).
Proof. intros st e st' H. discriminate H. Qed.

Lemma raises_only_record_id (P : Err -> Prop) (E : Env) : raises_only P (record_id E).
Proof. intros st e st' H. discriminate H. Qed.

Lemma raises_only_warcfile (E : Env) :
  raises_only (fun e => is_attribute_error e = false) (warcfile E).
Proof.
  intros st e st' H. rewrite warcfile_cases in H.
  destruct (_ <? _)%Z; [by injection H as <- _|].
  destruct (negb _); [by injection H as <- _|].
  cbn in H. destruct (bool_decide _); [by injection H as <- _|discriminate].
Qed.

Lemma raises_only_open_ab (p : string) :
  raises_only (fun e => is_attribute_error e = false) (open_ab p).
Proof.
  intros st e st' H. unfold open_ab, bind, gets in H.
  destruct (fs (world st) !! p) as [[sz|frs]|].
  - by injection H as <- _.
  - discriminate.
  - destruct (String.eqb _ _); [discriminate|].
    destruct (fs (world st) !! Py.dirname p) as [[sz|frs]|];
      [discriminate|by injection H as <- _|by injection H as <- _].
Qed.

Lemma raises_only_append_record (E : Env) (hs : list (string * PyVal)) (c : string) :
  raises_only (fun e => is_attribute_error e = false) (append_record E hs c).
Proof.
  unfold append_record. apply raises_only_bind.
  - apply raises_only_for_each. intros kv. apply raises_only_bind.
    + destruct (snd kv); cbn; (apply raises_only_ret || by apply raises_only_raise).
    + intros v. apply raises_only_ret.
  - intros bh. apply raises_only_bind; [apply raises_only_gets|]. intros [p|].
    + apply raises_only_bind; [apply raises_only_open_ab|]. intros [].
      unfold writer_write_record. apply raises_only_bind; [apply raises_only_gets|].
      intros t. apply raises_only_set_world.
    + by apply raises_only_raise.
Qed.

Lemma raises_only_bump_serial_with (E : Env)
    (wr : list (string * PyVal) -> string -> string -> M unit) (n : Z) :
  (forall hs ct c, raises_only (fun e => is_attribute_error e = false) (wr hs ct c)) ->
  raises_only (fun e => is_attribute_error e = false) (bump_serial_with E wr n).
Proof.
  intros Hwr st e st' H. rewrite bump_serial_with_cases in H.
  destruct (decides_rotation st n); [|discriminate].
  revert H. generalize (refreshed st) e st'.
  change (raises_only (fun e => is_attribute_error e = false)
    (f <- warcfile E;;
     set_self (set_warc_fname (Some f));;
     write_warcinfo_with E wr;;
     set_self (fun w => set_warc_count (warc_count w + 1) w))%py).
  apply raises_only_bind; [apply raises_only_warcfile|]. intros f.
  apply raises_only_bind; [apply raises_only_set_self|]. intros [].
  apply raises_only_bind; [|intros []; apply raises_only_set_self].
  unfold write_warcinfo_with.
  apply raises_only_bind; [apply raises_only_ask|]. intros d.
  apply raises_only_bind; [apply raises_only_gets|]. intros fn.
  apply raises_only_bind; [apply raises_only_record_id|]. intros rid.
  apply raises_only_bind; [apply raises_only_gets|]. intros cfg. apply Hwr.
Qed.

(** [write_record] raises what [warcfile] and [open] raise and the
    [TypeError] of a header that is not a string: never an
    [AttributeError]. *)
Lemma raises_only_write_record (E : Env) (fuel : nat) (hs : list (string * PyVal))
    (ct c : string) :
  raises_only (fun e => is_attribute_error e = false) (write_record E fuel hs ct c).
Proof.
  revert hs ct c. induction fuel as [|k IH]; intros hs ct c.
  - intros st e st' H. discriminate H.
  - cbn [write_record]. apply raises_only_bind.
    + by apply raises_only_bump_serial_with.
    + intros []. apply raises_only_append_record.
Qed.

(** ** Exchanges that fail after the checks *)

Lemma new_events_same (a b : St) :
  trace (world b) = trace (world a) -> new_events a b = [].
Proof. intros H. unfold new_events. rewrite H. apply drop_all. Qed.

(** With the URL of the record at hand, [get_headers] raises no
    [AttributeError]: what it can raise is the [ValueError] of [urlparse]
    or the one about the shape of the record. *)
Lemma get_headers_no_attribute_error (E : Env) (o : Obj.t) (st st' : St) (e : Err) :
  is_Some (Obj.url o) ->
  get_headers E o st = Raise e st' -> is_attribute_error e = false.
Proof.
  intros [u Hu] H. pose proof (get_headers_cases E o st) as Hc.
  rewrite H, Hu in Hc. destruct (Obj.headers o) as [hl|]; [|discriminate].
  destruct (Obj.method o) as [m|].
  - destruct (urlparse_path E u) as [msg|path].
    + by injection Hc as -> _.
    + destruct Hc as (? & _ & ?); discriminate.
  - destruct (Obj.status o); [destruct Hc as (? & _ & ?); discriminate|].
    by injection Hc as -> _.
Qed.

(** X8: when [write] ends in an [AttributeError] although the response
    has its URL, the error comes from the request (its [url] or its
    [body] is missing) after the response has been written: the call has
    logged exactly one exchange record, the response record, and no
    request record goes with it. *)
Theorem attribute_error_leaves_lone_response (E : Env) (fuel : nat)
    (response request : Obj.t) (st st' : St) (a : string) :
  (2 <= fuel)%nat ->
  is_Some (Obj.url response) ->
  write E fuel response request st = Raise (AttributeError a) st' ->
  (Obj.url request = None \/ Obj.body request = None) /\
  exists p rsp,
    exchange_events (new_events st st') = [(p, rsp)] /\
    kind rsp = Some (PStr "response").
Proof.
  intros Hfuel Hurl Hw.
  destruct (write_reaches E fuel response request st)
    as [[msg He]|[(_ & Hnone & _)|[(Hstatus & e & Hh & He)
       |(u & m & d & hs & b & _ & _ & Hm & Hd & _ & _ & He)]]].
  - rewrite He in Hw. discriminate.
  - rewrite Hnone in Hurl. by destruct Hurl.
  - rewrite He in Hw. assert (e = AttributeError a) as -> by congruence.
    specialize (Hh st).
    apply (get_headers_no_attribute_error E response st st _ Hurl) in Hh.
    discriminate.
  - rewrite He in Hw. clear He.
    apply bind_Raise_inv in Hw as [Hw|([] & s1 & Hw1 & Hw2)].
    { apply raises_only_write_record in Hw. discriminate. }
    apply (write_record_trace _ _ _ _ _ _ _ Hfuel) in Hw1
      as (p1 & pre1 & _ & Ht1 & Hpre1 & _).
    cbn [ticked world next_tick trace] in Ht1.
    assert (Hev : forall s, trace (world s) = trace (world s1) ->
      exists p rsp, exchange_events (new_events st s) = [(p, rsp)] /\
                    kind rsp = Some (PStr "response")).
    { intros s Hs. rewrite Ht1 in Hs. rewrite (new_events_app _ _ _ Hs).
      eexists p1, _. rewrite exchange_events_app, Hpre1.
      rewrite exchange_events_keep; [split; [reflexivity|apply response_record_kind]|].
      apply (kind_not_warcinfo _ "response"); [apply response_record_kind|done]. }
    unfold write_request, bind in Hw2.
    destruct (Obj.url request) as [u2|] eqn:Hu2; cbn [getattr lift ret raise] in Hw2.
    2:{ assert (s1 = st') as <- by congruence. split; [by left|]. by apply Hev. }
    rewrite Hm in Hw2. cbn [getattr lift ret] in Hw2.
    rewrite Hd in Hw2. cbn [ret] in Hw2. rewrite record_id_eq in Hw2.
    destruct (stateless_get_headers E request) as [r Hr]. rewrite Hr in Hw2.
    destruct r as [e2|hs2]; cbn [lift ret raise] in Hw2.
    { exfalso. assert (e2 = AttributeError a) as -> by congruence.
      specialize (Hr (ticked s1)). cbn [lift] in Hr.
      apply get_headers_no_attribute_error in Hr; [discriminate|].
      rewrite Hu2. eauto. }
    destruct (Obj.body request) as [b2|]; cbn [getattr lift ret raise] in Hw2.
    { apply raises_only_write_record in Hw2. discriminate. }
    assert (ticked s1 = st') as <- by congruence. split; [by right|]. by apply Hev.
Qed.

Lemma attribute_error_leaves_lone_response_witness :
  exists st' p rsp,
    write env0 2 response0 request_no_url st_fresh = Raise (AttributeError "url") st' /\
    exchange_events (new_events st_fresh st') = [(p, rsp)] /\
    kind rsp = Some (PStr "response").
Proof.
  eexists.
  edestruct (attribute_error_leaves_lone_response env0 2 response0 request_no_url st_fresh)
    as (_ & p & rsp & Hev & Hk); [lia|eexists; reflexivity|vm_compute; reflexivity|].
  exists p, rsp. split; [vm_compute; reflexivity|]. split; [exact Hev|exact Hk].
Defined.

Lemma bytes_loop_Ret (hs : list (string * PyVal)) (st st' : St) (l : list (string * string)) :
  for_each hs (fun kv => val <- lift (bytes_utf8 kv.2);; ret (kv.1, val)) st = Ret l st' ->
  forall k v, (k, v) ∈ hs -> exists s, v = PStr s.
Proof.
  revert st st' l. induction hs as [|[k0 v0] hs IH]; intros st st' l H k v Hin.
  - by apply elem_of_nil in Hin.
  - cbn [for_each] in H. apply bind_Ret_inv in H as (y & s1 & Hy & H).
    apply bind_Ret_inv in Hy as (val & s2 & Hval & Hy).
    cbn [snd] in Hval. destruct v0 as [s| | |]; try discriminate Hval.
    injection Hval as _ <-. injection Hy as _ <-.
    apply bind_Ret_inv in H as (ys & s3 & Hys & _).
    apply elem_of_cons in Hin as [[= -> ->]|Hin]; [eauto|].
    by apply (IH _ _ ys Hys k v).
Qed.

(** A header whose value is not a string stops [append_record] before
    anything is written. *)
Lemma append_record_bad_header (E : Env) (hs : list (string * PyVal)) (c : string)
    (st : St) (k : string) (v : PyVal) :
  (k, v) ∈ hs -> (forall s, v <> PStr s) ->
  exists e, append_record E hs c st = Raise e st.
Proof.
  intros Hin Hbad.
  pose proof (append_record_inv E hs c st) as Hinv.
  destruct (append_record E hs c st) as [[] s1|e s1|] eqn:Hrun; [|subst; eauto|done].
  exfalso. unfold append_record in Hrun.
  apply bind_Ret_inv in Hrun as (l & s2 & Hl & _).
  destruct (bytes_loop_Ret hs st s2 l Hl k v Hin) as [s Hs]. by apply (Hbad s).
Qed.

(** X10: when the [WARC-Date] found in the request's meta is not a
    string, [write] never returns, and however it ends it has logged no
    exchange record: neither the response nor the request is written
    (a new segment may have been begun with its segment-info record). *)
Theorem non_string_date_writes_no_exchange (E : Env) (fuel : nat)
    (response request : Obj.t) (m : gmap string PyVal) (d : PyVal) (st : St) :
  (2 <= fuel)%nat ->
  Obj.meta request = Some m ->
  m !! "WARC-Date" = Some d ->
  (forall s, d <> PStr s) ->
  (forall st', write E fuel response request st <> Ret tt st') /\
  ends_in (write E fuel response request st)
          (fun st' => exchange_events (new_events st st') = []).
Proof.
  intros Hfuel Hm Hd Hbad.
  destruct (write_reaches E fuel response request st)
    as [[msg ->]|[(_ & _ & ->)|[(_ & e & _ & ->)
       |(u & m' & d' & hs & b & _ & _ & Hm' & Hd' & _ & _ & ->)]]].
  - split; [done|]. cbn. by rewrite new_events_same.
  - split; [done|]. cbn. by rewrite new_events_same.
  - split; [done|]. cbn. by rewrite new_events_same.
  - assert (m' = m) as -> by congruence. assert (d' = d) as -> by congruence.
    set (h := response_warc_headers u d (record_id_at E (tick (world st)))).
    set (c := exchange_content E hs b).
    assert (Hin : ("WARC-Date", d) ∈ h).
    { unfold h, response_warc_headers. rewrite !elem_of_cons. auto. }
    assert (Hwr : exists e s, write_record E fuel h "application/http;msgtype=response" c
                                (ticked st) = Raise e s /\
                              exchange_events (new_events st s) = []).
    { destruct fuel as [|[|k]]; [lia|lia|]. rewrite write_record_flat. unfold bind.
      pose proof (bump_serial_inv E (getsizeof E c) (ticked st)) as Hinv.
      destruct (bump_serial_with _ _ _ _) as [[] s1|e s1|] eqn:Hb; [| |done].
      - destruct (append_record_bad_header E h c s1 "WARC-Date" d Hin Hbad) as [e ->].
        exists e, s1. split; [done|].
        destruct Hinv as [[_ ->]|(_ & _ & _ & _ & ->)].
        + rewrite new_events_same; [done|]. by rewrite refreshed_world.
        + erewrite new_events_app; [|apply (rotated_trace E (ticked st))]. reflexivity.
      - exists e, s1. split; [done|]. destruct Hinv as (_ & _ & Ht & _).
        by rewrite new_events_same. }
    destruct Hwr as (e & s & Hw & Hev). unfold bind at 1 2. rewrite Hw.
    split; [done|exact Hev].
Qed.

Lemma non_string_date_writes_no_exchange_witness :
  (forall st', write env0 2 response0 request_int_date st_fresh <> Ret tt st') /\
  ends_in (write env0 2 response0 request_int_date st_fresh)
          (fun st' => exchange_events (new_events st_fresh st') = []).
Proof.
  apply (non_string_date_writes_no_exchange env0 2 response0 request_int_date
           {[ "WARC-Date" := PInt 20240101 ]} (PInt 20240101) st_fresh);
    [lia|reflexivity|reflexivity|discriminate].
Defined.

Example non_string_date_begins_segment :
  exists e st',
    write env0 2 response0 request_int_date st_fresh = Raise (TypeError e) st' /\
    map fst (trace (world st')) = [segment0] /\
    warc_count (self st') = 1%Z.
Proof. eexists _, _. split; [vm_compute; reflexivity|]. split; reflexivity. Qed.

(** ** The destination is a file *)

(** The header bytes of a segment-info record with a file name are all
    there: [append_record] goes on to open the file. *)
Lemma append_record_warcinfo (E : Env) (d f rid c : string) (st : St) :
  append_record E (warcinfo_headers d (Some f) rid) c st =
    match warc_fname (self st) with
    | None => Raise (TypeError "expected str, bytes or os.PathLike object, not NoneType") st
    | Some p =>
        (open_ab p;; writer_write_record E p
                       (make_record (warcinfo_headers d (Some f) rid) c))%py st
    end.
Proof.
  unfold append_record, warcinfo_headers. cbn [for_each from_option snd fst bytes_utf8 lift].
  unfold bind, ret, gets. destruct (warc_fname (self st)); reflexivity.
Qed.

Lemma append_record_not_a_directory (E : Env) (d f rid c : string) (st : St)
    (frs : list Frame) :
  warc_fname (self st) = Some f ->
  fs (world st) !! f = None ->
  Py.dirname f <> "" ->
  fs (world st) !! Py.dirname f = Some (File frs) ->
  append_record E (warcinfo_headers d (Some f) rid) c st = Raise (NotADirectoryError f) st.
Proof.
  intros Hf Hnone Hne Hdir. rewrite append_record_warcinfo, Hf.
  unfold bind at 1. unfold open_ab, bind, gets. rewrite Hnone, Hdir.
  by destruct (String.eqb_spec (Py.dirname f) "").
Qed.

(** X13: the destination exists but is a file, and the directory of the
    computed path is that destination.  [warcfile] accepts it; the new
    name is assigned; then opening the new file fails.  A rotating
    [write_record] ends in [NotADirectoryError] with nothing written and
    nothing logged, the serial counter not advanced, and the writer
    holding the new name, at which no file exists. *)
Theorem destination_is_a_file (E : Env) (st : St) (frs : list Frame)
    (fuel : nat) (hs : list (string * PyVal)) (ct c : string) :
  (2 <= fuel)%nat ->
  (warc_count (self st) <= max_serial (self st))%Z ->
  warc_dest (config (self st)) <> "" ->
  fs (world st) !! warc_dest (config (self st)) = Some (File frs) ->
  fs (world st) !! segment_path E (self st) (tick (world st)) = None ->
  Py.dirname (segment_path E (self st) (tick (world st))) = warc_dest (config (self st)) ->
  decides_rotation st (getsizeof E c) = true ->
  exists st',
    write_record E fuel hs ct c st =
      Raise (NotADirectoryError (segment_path E (self st) (tick (world st)))) st' /\
    fs (world st') = fs (world st) /\
    trace (world st') = trace (world st) /\
    warc_count (self st') = warc_count (self st) /\
    warc_fname (self st') = Some (segment_path E (self st) (tick (world st))).
Proof.
  intros Hfuel Hle Hne Hdest Hnone Hdir Hd.
  set (f := segment_path E (self st) (tick (world st))) in *.
  exists (renamed f st).
  destruct (refreshed_fields st) as (_ & Hc & Hm & Hg).
  split; [|by cbn; rewrite Hc].
  destruct fuel as [|[|k]]; [lia|lia|]. rewrite write_record_flat.
  unfold bind at 1. rewrite bump_serial_with_cases, Hd.
  assert (Hwf : warcfile E (refreshed st) = Ret f (ticked (refreshed st))).
  { rewrite warcfile_cases, Hc, Hm, refreshed_dest_ok, refreshed_world,
      refreshed_segment_path. fold f.
    destruct (_ <? _)%Z eqn:Hlt; [apply Z.ltb_lt in Hlt; lia|].
    unfold dest_ok. rewrite Hdest, Hnone. cbn. by rewrite andb_false_r. }
  unfold bind at 1. rewrite Hwf.
  unfold bind at 1. unfold set_self at 1.
  unfold bind at 1. rewrite write_warcinfo_with_eq.
  cbn [self ticked set_warc_fname warc_fname].
  rewrite (append_record_not_a_directory E _ f _ _ _ frs);
    [|reflexivity|cbn; by rewrite refreshed_world|by rewrite Hdir
     |cbn; by rewrite refreshed_world, Hdir].
  unfold renamed, ticked. cbn. by rewrite refreshed_world.
Qed.

Lemma destination_is_a_file_witness :
  exists st',
    write_record env0 2 (response_warc_headers "http://quotes.toscrape.com/"
                           (PStr "2024-01-01T00:00:00Z") (record_id_at env0 0))
      "application/http;msgtype=response" "HTTP/1.0 200" st_dest_file =
      Raise (NotADirectoryError "out/rec-20240101000000-00000-crawler01.warc.gz") st' /\
    fs (world st') = fs (world st_dest_file) /\
    warc_count (self st') = 0%Z /\
    warc_fname (self st') = Some "out/rec-20240101000000-00000-crawler01.warc.gz".
Proof.
  edestruct (destination_is_a_file env0 st_dest_file [] 2
               (response_warc_headers "http://quotes.toscrape.com/"
                  (PStr "2024-01-01T00:00:00Z") (record_id_at env0 0))
               "application/http;msgtype=response" "HTTP/1.0 200")
    as (st' & Hrun & Hfs & _ & Hc & Hf);
    [lia|cbn; lia|discriminate|reflexivity|reflexivity|reflexivity|reflexivity|].
  exists st'. split; [exact Hrun|]. split; [exact Hfs|]. split; [exact Hc|exact Hf].
Defined.

(** ** Where the two records of an exchange lie *)

(** After a returning [write_record] the written record is the last frame
    of the file the writer is on. *)
Lemma write_record_last (E : Env) (fuel : nat) (hs : list (string * PyVal))
    (ct c : string) (st st' : St) :
  (2 <= fuel)%nat ->
  write_record E fuel hs ct c st = Ret tt st' ->
  exists p before fr,
    warc_fname (self st') = Some p /\
    fs (world st') !! p = Some (File (before ++ [fr])) /\
    frame_record fr = make_record hs c /\
    trace (world st') !! (length (trace (world st')) - 1)%nat = Some (p, make_record hs c).
Proof.
  intros Hfuel Hw.
  apply (write_record_Ret _ _ _ _ _ _ _ Hfuel) in Hw
    as [(_ & p & Hp & _ & ->)|(_ & _ & _ & Hnone & ->)].
  - destruct (refreshed_fields st) as (Hfn & _).
    exists p, (frames_at p (fs (world st))). eexists.
    rewrite appended_self, Hfn, appended_fs, refreshed_world, lookup_insert_eq.
    split; [done|]. split; [reflexivity|]. split; [reflexivity|].
    rewrite appended_trace, length_app. cbn [length].
    rewrite lookup_app_r by lia.
    replace (_ - _)%nat with 0%nat by lia. reflexivity.
  - eexists _, [_]. eexists.
    rewrite appended_self, rotated_fname, (appended_rotated_fs E _ st Hnone),
      lookup_insert_eq.
    split; [done|]. split; [reflexivity|]. split; [reflexivity|].
    rewrite appended_trace, length_app. cbn [length].
    rewrite lookup_app_r by lia.
    replace (_ - _)%nat with 0%nat by lia. reflexivity.
Qed.

(** X12: where the two exchange records of a returning [write] lie.
    Either both are in the same file, the response record and the
    request record being its last two frames; or a segment was begun
    between them: the response record is the last frame of its file, and
    the request record is the second and last frame of another file, at
    a path where nothing existed when the call began, right after that
    file's segment-info record. *)
Theorem pair_adjacent_or_rotated (E : Env) (fuel : nat) (response request : Obj.t)
    (st st' : St) :
  (2 <= fuel)%nat ->
  write E fuel response request st = Ret tt st' ->
  exists p1 rsp p2 req before,
    exchange_events (new_events st st') = [(p1, frame_record rsp); (p2, frame_record req)] /\
    warc_fname (self st') = Some p2 /\
    ((p1 = p2 /\
      fs (world st') !! p1 = Some (File (before ++ [rsp; req]))) \/
     (p1 <> p2 /\
      fs (world st) !! p2 = None /\
      fs (world st') !! p1 = Some (File (before ++ [rsp])) /\
      exists info,
        is_warcinfo (frame_record info) = true /\
        fs (world st') !! p2 = Some (File [info; req]))).
Proof.
  intros Hfuel Hw.
  apply write_Ret in Hw as (u & m & d & c & st1 & _ & _ & _ & _ & Hw1 & Hw2).
  apply write_request_Ret in Hw2 as (u2 & m2 & d2 & c2 & _ & _ & _ & Hw2).
  pose proof (write_record_append_only E fuel
    (response_warc_headers u d (record_id_at E (tick (world st))))
    "application/http;msgtype=response" c (ticked st) Hfuel) as Hao.
  rewrite Hw1 in Hao. cbn in Hao. destruct Hao as (Hkeep & _).
  assert (Hold : forall q, fs (world (ticked st1)) !! q = None -> fs (world st) !! q = None).
  { intros q Hq. destruct (fs (world st) !! q) as [nd|] eqn:Hnd; [|done].
    destruct (Hkeep q nd Hnd) as (nd' & Hq' & _). cbn in Hq. congruence. }
  pose proof (write_record_trace _ _ _ _ _ _ _ Hfuel Hw1) as (q1 & pre1 & Hq1 & Ht1 & Hpre1 & _).
  destruct (write_record_last _ _ _ _ _ _ _ Hfuel Hw1)
    as (p1 & before & fr1 & Hf1 & Hfile1 & Hrec1 & _).
  assert (q1 = p1) as -> by congruence.
  set (rsp := make_record (response_warc_headers u d (record_id_at E (tick (world st)))) c)
    in *.
  set (req := make_record (request_warc_headers u2 d2 (record_id_at E (tick (world st1)))
                             (record_id_at E (tick (world st)))) c2) in *.
  assert (Hrsp : is_warcinfo rsp = false)
    by (apply (kind_not_warcinfo _ "response"); [apply response_record_kind|done]).
  assert (Hreq : is_warcinfo req = false)
    by (apply (kind_not_warcinfo _ "request"); [apply request_record_kind|done]).
  cbn [ticked world next_tick trace] in Ht1.
  apply (write_record_Ret _ _ _ _ _ _ _ Hfuel) in Hw2
    as [(_ & p & Hp & _ & ->)|(_ & _ & _ & Hnone & ->)].
  - cbn [ticked self] in Hp. assert (p = p1) as -> by congruence.
    exists p1, fr1, p1, (frame_at E (S (tick (world st1))) req), before.
    rewrite appended_self, appended_fs, !refreshed_world.
    destruct (refreshed_fields (ticked st1)) as (-> & _).
    cbn [ticked self world next_tick fs trace tick].
    split.
    { erewrite new_events_app;
        [|rewrite appended_trace, refreshed_world; cbn [ticked world next_tick trace];
          rewrite Ht1, <- !app_assoc; reflexivity].
      rewrite !exchange_events_app, Hpre1, Hrec1.
      rewrite !exchange_events_keep by done. reflexivity. }
    split; [done|]. left. split; [done|].
    rewrite lookup_insert_eq. unfold frames_at. rewrite Hfile1, <- app_assoc. reflexivity.
  - set (f := segment_path E (self (ticked st1)) (tick (world (ticked st1)))) in *.
    assert (Hne : p1 <> f).
    { intros ->. cbn [ticked world next_tick fs] in Hnone. congruence. }
    exists p1, fr1, f, (frame_at E (S (S (S (S (S (tick (world st1))))))) req), before.
    rewrite appended_self, rotated_fname.
    rewrite (appended_rotated_fs E _ (ticked st1) Hnone). fold f.
    cbn [ticked self world next_tick fs trace tick].
    split.
    { erewrite new_events_app;
        [|rewrite appended_trace, rotated_trace; cbn [ticked world next_tick trace];
          rewrite Ht1, <- !app_assoc; reflexivity].
      rewrite !exchange_events_app, Hpre1, Hrec1.
      rewrite !exchange_events_keep by done.
      unfold exchange_events at 1. rewrite filter_cons_False, filter_nil.
      - reflexivity.
      - cbn [snd]. rewrite warcinfo_record_kind. done. }
    split; [done|]. right. split; [done|]. split; [by apply Hold|].
    split.
    { rewrite lookup_insert_ne by done. exact Hfile1. }
    eexists. split; [|rewrite lookup_insert_eq; reflexivity].
    apply warcinfo_record_kind.
Qed.

Lemma pair_adjacent_or_rotated_witness :
  exists st' p1 rsp p2 req before,
    write env0 2 response0 request0 (st_segment 900) = Ret tt st' /\
    exchange_events (new_events (st_segment 900) st')
      = [(p1, frame_record rsp); (p2, frame_record req)] /\
    warc_fname (self st') = Some p2 /\
    ((p1 = p2 /\
      fs (world st') !! p1 = Some (File (before ++ [rsp; req]))) \/
     (p1 <> p2 /\
      fs (world (st_segment 900)) !! p2 = None /\
      fs (world st') !! p1 = Some (File (before ++ [rsp])) /\
      exists info,
        is_warcinfo (frame_record info) = true /\
        fs (world st') !! p2 = Some (File [info; req]))).
Proof.
  eexists.
  edestruct (pair_adjacent_or_rotated env0 2 response0 request0 (st_segment 900))
    as (p1 & rsp & p2 & req & before & Hev & Hfn & Hcase);
    [lia|vm_compute; reflexivity|].
  exists p1, rsp, p2, req, before.
  split; [vm_compute; reflexivity|]. split; [exact Hev|]. split; [exact Hfn|exact Hcase].
Defined.

Example pair_adjacent_run :
  exists st' rsp req,
    write env0 2 response0 request0 (st_segment 900) = Ret tt st' /\
    fs (world st') !! segment0 = Some (File [earlier_frame 900; rsp; req]) /\
    kind (frame_record rsp) = Some (PStr "response") /\
    kind (frame_record req) = Some (PStr "request").
Proof.
  eexists _, _, _. split; [vm_compute; reflexivity|].
  split; [vm_compute; reflexivity|]. split; reflexivity.
Qed.
